(** * Tunisia Flights API: the date window and the Djerba flight aggregator

    A shallow embedding of [main.py].  The module has two functions:
    [get_dates], which renders yesterday, today and tomorrow as day, month
    and year strings, and the handler [get_djerba_flights], which queries
    the upstream once per date and movement, folds the answers into a
    dictionary keyed by date and collects the failures in a list.

    What the handler calls but does not define is modelled after the
    libraries it comes from:
    - [datetime] arithmetic follows CPython's proleptic Gregorian ordinals
      ([_ymd2ord], [_ord2ymd]); a result outside years 1..9999 raises
      [OverflowError];
    - [strftime] is the C library's, as CPython 3.11 on glibc calls it:
      [%d] and [%m] are zero-padded to two digits, [%Y] is the decimal
      numeral of the year and is not padded, so a year below 1000 has fewer
      than four digits;
    - the upstream is an oracle giving, for each request, what the three
      calls [client.get], [raise_for_status] and [response.json] did;
    - pydantic's validation of a [str] field and the text [str(e)] of an
      exception are parameters of the aggregator;
    - a [str] is a [string], its characters read as code points below 256.

    Only exceptions derived from [Exception] are modelled, those the last
    handler of the [try] statement catches. *)

From Stdlib Require Import ZArith Lia Ascii String List Bool.
From stdpp Require Import base option list strings pretty gmap fin_maps.

Import ListNotations.
#[local] Set Warnings "-register-all".
#[local] Open Scope string_scope.
#[local] Open Scope Z_scope.

(** ** Calendar arithmetic of [datetime] *)

Module Calendar.

Definition MINYEAR : Z := 1.
Definition MAXYEAR : Z := 9999.
Definition MAXORDINAL : Z := 3652059.

(** year -> 1 if leap year, else 0. *)
Definition is_leap (year : Z) : bool :=
  (year mod 4 =? 0) && (negb (year mod 100 =? 0) || (year mod 400 =? 0)).

(** year -> number of days before January 1st of year. *)
Definition days_before_year (year : Z) : Z :=
  let y := year - 1 in
  y * 365 + y / 4 - y / 100 + y / 400.

(** The table [_DAYS_IN_MONTH]; index 0 holds -1 in the source. *)
Definition DAYS_IN_MONTH (month : Z) : Z :=
  match month with
  | 1 => 31 | 2 => 28 | 3 => 31 | 4 => 30 | 5 => 31 | 6 => 30
  | 7 => 31 | 8 => 31 | 9 => 30 | 10 => 31 | 11 => 30 | 12 => 31
  | _ => -1
  end.

(** The table [_DAYS_BEFORE_MONTH], the running sum of the table above. *)
Definition DAYS_BEFORE_MONTH (month : Z) : Z :=
  match month with
  | 1 => 0 | 2 => 31 | 3 => 59 | 4 => 90 | 5 => 120 | 6 => 151
  | 7 => 181 | 8 => 212 | 9 => 243 | 10 => 273 | 11 => 304 | 12 => 334
  | _ => -1
  end.

(** year, month -> number of days in that month in that year. *)
Definition days_in_month (year month : Z) : Z :=
  if (month =? 2) && is_leap year then 29 else DAYS_IN_MONTH month.

(** year, month -> number of days in year preceding first day of month. *)
Definition days_before_month (year month : Z) : Z :=
  DAYS_BEFORE_MONTH month + (if (2 <? month) && is_leap year then 1 else 0).

(** The calendar part of a [datetime], which is all [get_dates] formats;
    a whole-day [timedelta] leaves the time of day as it is. *)
Record datetime := mkdate { year : Z; month : Z; day : Z }.

(** The invariant every [datetime] object satisfies. *)
Definition valid_date (d : datetime) : Prop :=
  MINYEAR <= year d <= MAXYEAR /\ 1 <= month d <= 12 /\
  1 <= day d <= days_in_month (year d) (month d).

(** year, month, day -> ordinal, considering 01-Jan-0001 as day 1. *)
Definition ymd2ord (d : datetime) : Z :=
  days_before_year (year d) + days_before_month (year d) (month d) + day d.

Definition DI400Y : Z := 146097.
Definition DI100Y : Z := 36524.
Definition DI4Y : Z := 1461.

(** ordinal -> (year, month, day), considering 01-Jan-0001 as day 1. *)
Definition ord2ymd (n : Z) : datetime :=
  let n := n - 1 in
  let n400 := n / DI400Y in
  let n := n mod DI400Y in
  let year := n400 * 400 + 1 in
  let n100 := n / DI100Y in
  let n := n mod DI100Y in
  let n4 := n / DI4Y in
  let n := n mod DI4Y in
  let n1 := n / 365 in
  let n := n mod 365 in
  let year := year + (n100 * 100 + n4 * 4 + n1) in
  if (n1 =? 4) || (n100 =? 4) then mkdate (year - 1) 12 31
  else
    let leapyear := (n1 =? 3) && (negb (n4 =? 24) || (n100 =? 3)) in
    let month := Z.shiftr (n + 50) 5 in
    let preceding :=
      DAYS_BEFORE_MONTH month + (if (2 <? month) && leapyear then 1 else 0) in
    if n <? preceding then
      let month := month - 1 in
      let preceding :=
        preceding
        - (DAYS_IN_MONTH month + (if (month =? 2) && leapyear then 1 else 0)) in
      mkdate year month (n - preceding + 1)
    else mkdate year month (n - preceding + 1).

Definition toordinal (d : datetime) : Z := ymd2ord d.
Definition fromordinal (n : Z) : datetime := ord2ymd n.

(** [d + timedelta(days=k)]: the ordinal moves by [k]; a result outside
    [1..MAXORDINAL] raises [OverflowError], here [None]. *)
Definition add_days (d : datetime) (k : Z) : option datetime :=
  let o := toordinal d + k in
  if (0 <? o) && (o <=? MAXORDINAL) then Some (fromordinal o) else None.

End Calendar.

Import Calendar.

(** ** Response models *)

Record FlightDetails := mkFlightDetails {
  destination : string;
  time : string;
  company : string;
  fnumber : string;
  comment : option string
}.

Record DateFlights := mkDateFlights {
  departures : list FlightDetails;
  arrivals : list FlightDetails
}.

(** [DateFlights()]: both fields come from [default_factory=list]. *)
Definition DateFlights_default : DateFlights := mkDateFlights [] [].

Module MovementType.
Inductive t := departures | arrivals.
(** The enum mixes in [str]: a member compares equal to its value. *)
Definition value (m : t) : string :=
  match m with
  | departures => "D"
  | arrivals => "A"
  end.
#[global] Instance eq_dec : EqDecision t.
Proof. solve_decision. Defined.
End MovementType.

(** An entry of [api_errors]: a dict with the keys date, movement, error. *)
Record FetchError := mkFetchError {
  date : string;
  movement : string;
  error : string
}.

(** ** What the upstream answers *)

(** A value as [response.json()] returns it.  A [JDict] holds the items of
    the dict, one per key. *)
Inductive json :=
  | JNull
  | JBool (b : bool)
  | JInt (n : Z)
  | JFloat (repr : string)
  | JStr (s : string)
  | JList (items : list json)
  | JDict (items : list (string * json)).

(** What the calls [client.get], [raise_for_status] and [response.json]
    do for one request. *)
Inductive reply :=
  | RequestError (msg : string)
  | HTTPStatusError (status_code : Z) (text : string)
  | OtherError (msg : string)
  | Json (data : json).

(** The values the URL is built from, in place of its text. *)
Record request := mkRequest {
  frmmvtCod : MovementType.t;
  frmairport : string;
  frmday : string;
  frmmonth : string;
  frmacty : string
}.

#[global] Instance request_eq_dec : EqDecision request.
Proof. solve_decision. Defined.

(** Exceptions raised by the code of the module itself. *)
Inductive exception :=
  | OverflowError
  | IndexError
  | KeyError (key : string)
  | TypeError (obj : json)
  | AttributeError (obj : json)
  | ValidationError (kwargs : list (string * json)).

#[global] Instance exception_bind : MBind (sum exception) :=
  fun A B f m => match m with inl e => inl e | inr a => f a end.

#[global] Instance exception_fmap : FMap (sum exception) :=
  fun A B f m => match m with inl e => inl e | inr a => inr (f a) end.

(** ** [strftime] and [get_dates] *)

Fixpoint zeros (n : nat) : string :=
  match n with
  | O => ""
  | S n => String "0" (zeros n)
  end.

(** A decimal numeral padded with zeros on the left up to [width]. *)
Definition zfill (width : nat) (s : string) : string :=
  zeros (width - String.length s) +:+ s.

Definition strftime_d (t : datetime) : string := zfill 2 (pretty (day t)).
Definition strftime_m (t : datetime) : string := zfill 2 (pretty (month t)).

(** [%Y]: the year in decimal, as many digits as it has. *)
Definition strftime_Y (t : datetime) : string := pretty (year t).

(** [get_dates], with [today] the value of [datetime.now()]. *)
Definition get_dates (today : datetime) : exception + list string :=
  match add_days today (-1) with
  | None => inl OverflowError
  | Some yesterday =>
    match add_days today 1 with
    | None => inl OverflowError
    | Some tomorrow =>
      inr [ strftime_d yesterday; strftime_m yesterday; strftime_Y yesterday;
            strftime_d today; strftime_m today; strftime_Y today;
            strftime_d tomorrow; strftime_m tomorrow; strftime_Y tomorrow ]
    end
  end.

(** ** [str.strip] *)

(** Whitespace as [str.isspace] has it, for the code points below 256. *)
Definition isspace (c : ascii) : bool :=
  let n := N_of_ascii c in
  ((9 <=? n) && (n <=? 13) || (28 <=? n) && (n <=? 32)
   || (n =? 133) || (n =? 160))%N.

Fixpoint lstrip (s : string) : string :=
  match s with
  | "" => ""
  | String c s' => if isspace c then lstrip s' else s
  end.

Fixpoint rstrip (s : string) : string :=
  match s with
  | "" => ""
  | String c s' =>
    match rstrip s' with
    | "" => if isspace c then "" else String c ""
    | r => String c r
    end
  end.

Definition strip (s : string) : string := rstrip (lstrip s).

(** ** The aggregator, [get_djerba_flights] *)

(** [d[key]] on the items of a dict. *)
Fixpoint dict_get (items : list (string * json)) (key : string) : option json :=
  match items with
  | [] => None
  | (k, v) :: rest => if String.eqb k key then Some v else dict_get rest key
  end.

(** [item[key]] with a [str] key: only a dict can be subscripted so. *)
Definition getitem (item : json) (key : string) : exception + json :=
  match item with
  | JDict items =>
    match dict_get items key with
    | Some v => inr v
    | None => inl (KeyError key)
    end
  | _ => inl (TypeError item)
  end.

(** [v.strip()]: of the values JSON gives, only a [str] has the method. *)
Definition strip_method (v : json) : exception + string :=
  match v with
  | JStr s => inr (strip s)
  | _ => inl (AttributeError v)
  end.

(** The two accumulators of the handler. *)
Record state := mkState {
  flights_by_date : gmap string DateFlights;
  api_errors : list FetchError
}.

(** What leaves the [try] block to one of the three handlers. *)
Inductive caught :=
  | CaughtHTTPStatusError (status_code : Z) (text : string)
  | CaughtRequestError (msg : string)
  | CaughtException (msg : string).

(** The [detail] of the [HTTPException]. *)
Record detail := mkDetail {
  message : string;
  errors : list FetchError
}.

(** How a call of the handler ends. *)
Inductive response :=
  | Return (body : gmap string DateFlights)
  | HTTPException (status_code : Z) (d : detail)
  | Uncaught (e : exception).

Definition port : string := "djerba".

Definition movements : list MovementType.t :=
  [MovementType.departures; MovementType.arrivals].

(** ["departures" if movement == "D" else "arrivals"] *)
Definition movement_label (movement : MovementType.t) : string :=
  if String.eqb (MovementType.value movement) "D" then "departures"
  else "arrivals".

(** The [extend] on the bucket that [movement] selects. *)
Definition extend (movement : MovementType.t) (flight_details : list FlightDetails)
    (df : DateFlights) : DateFlights :=
  if decide (movement = MovementType.departures)
  then mkDateFlights (departures df ++ flight_details) (arrivals df)
  else mkDateFlights (departures df) (arrivals df ++ flight_details).

Definition record_error (st : state) (current_date : string)
    (movement : MovementType.t) (err : string) : state :=
  mkState (flights_by_date st)
    (api_errors st ++ [mkFetchError current_date (movement_label movement) err]).

(** [range(start, stop, step)] for a positive step. *)
Definition range (start stop step : nat) : list nat :=
  (fun k => start + step * k)%nat <$> seq 0 ((stop - start + (step - 1)) / step)%nat.

Section Aggregator.

(** Validation of a value given for a field annotated [str]: the string the
    model stores, or [None] when pydantic rejects the value. *)
Variable validate_str : json -> option string.

(** [str(e)] *)
Variable str_exc : exception -> string.

(** The upstream.  The six requests of a call differ from one another, so
    a function of the request says as much as a sequence of replies. *)
Variable upstream : request -> reply.

(** A field annotated [Optional[str]]. *)
Definition validate_optional_str (v : json) : option (option string) :=
  match v with
  | JNull => Some None
  | _ => Some <$> validate_str v
  end.

(** The constructor of the model: every argument is validated, and one
    [ValidationError] reports all that fail. *)
Definition FlightDetails_init (destination time company fnumber comment : json)
    : exception + FlightDetails :=
  match validate_str destination, validate_str time, validate_str company,
        validate_str fnumber, validate_optional_str comment with
  | Some d, Some t, Some c, Some f, Some cm => inr (mkFlightDetails d t c f cm)
  | _, _, _, _, _ =>
    inl (ValidationError [("destination", destination); ("time", time);
                          ("company", company); ("fnumber", fnumber);
                          ("comment", comment)])
  end.

(** The element expression of the list comprehension. *)
Definition to_flight (item : json) : exception + FlightDetails :=
  direction ← getitem item "direction";
  heure ← getitem item "heure";
  compagnie ← getitem item "compagnie";
  stripped ← strip_method compagnie;
  numVol ← getitem item "numVol";
  commentaire ← getitem item "commentaire";
  FlightDetails_init direction heure (JStr stripped) numVol commentaire.

(** The list comprehension: the first element that raises ends it. *)
Fixpoint comprehension (data : list json) : exception + list FlightDetails :=
  match data with
  | [] => inr []
  | item :: rest =>
    f ← to_flight item;
    fs ← comprehension rest;
    inr (f :: fs)
  end.

(** The body of the [try] statement. *)
Definition try_body (current_date day month year : string)
    (movement : MovementType.t) (st : state) : caught + state :=
  match upstream (mkRequest movement port day month year) with
  | RequestError msg => inl (CaughtRequestError msg)
  | HTTPStatusError status_code text => inl (CaughtHTTPStatusError status_code text)
  | OtherError msg => inl (CaughtException msg)
  | Json (JList data) =>
    match comprehension data with
    | inl e => inl (CaughtException (str_exc e))
    | inr flight_details =>
      match flights_by_date st !! current_date with
      | None => inl (CaughtException (str_exc (KeyError current_date)))
      | Some df =>
        inr (mkState (<[current_date := extend movement flight_details df]>
                        (flights_by_date st))
                     (api_errors st))
      end
    end
  | Json _ => inr (record_error st current_date movement "Unexpected response format")
  end.

(** One turn of the loop over [movements]: the [try] with its handlers. *)
Definition fetch (current_date day month year : string) (st : state)
    (movement : MovementType.t) : state :=
  match try_body current_date day month year movement st with
  | inr st' => st'
  | inl (CaughtHTTPStatusError status_code text) =>
    record_error st current_date movement
      ("API error " +:+ pretty status_code +:+ ": " +:+ text)
  | inl (CaughtRequestError msg) =>
    record_error st current_date movement ("Network error: " +:+ msg)
  | inl (CaughtException msg) =>
    record_error st current_date movement ("Unexpected error: " +:+ msg)
  end.

(** [f"{day}-{month}-{year}"] *)
Definition date_key (day month year : string) : string :=
  day +:+ "-" +:+ month +:+ "-" +:+ year.

(** One turn of the loop over the dates. *)
Definition process_date (dates : list string) (st : state) (i : nat)
    : exception + state :=
  match dates !! i, dates !! (i + 1)%nat, dates !! (i + 2)%nat with
  | Some day, Some month, Some year =>
    let current_date := date_key day month year in
    let st :=
      match flights_by_date st !! current_date with
      | None => mkState (<[current_date := DateFlights_default]> (flights_by_date st))
                        (api_errors st)
      | Some _ => st
      end in
    inr (foldl (fetch current_date day month year) st movements)
  | _, _, _ => inl IndexError
  end.

Fixpoint for_each (dates : list string) (indices : list nat) (st : state)
    : exception + state :=
  match indices with
  | [] => inr st
  | i :: rest =>
    st' ← process_date dates st i;
    for_each dates rest st'
  end.

(** The accumulators when the loops are over. *)
Definition aggregate (dates : list string) : exception + state :=
  for_each dates (range 0 (length dates) 3) (mkState ∅ []).

(** The lines after the loops. *)
Definition respond (st : state) : response :=
  if bool_decide (flights_by_date st = ∅) && negb (bool_decide (api_errors st = []))
  then HTTPException 500 (mkDetail "Unable to fetch flights" (api_errors st))
  else Return (flights_by_date st).

Definition get_djerba_flights (now : datetime) : response :=
  match get_dates now with
  | inl e => Uncaught e
  | inr dates =>
    match aggregate dates with
    | inl e => Uncaught e
    | inr st => respond st
    end
  end.

End Aggregator.

(** ** Definitions the statements below are written with *)

(** The second half of [ord2ymd]: month and day from the day of the year. *)
Definition month_day (leapyear : bool) (year n : Z) : datetime :=
  let month := Z.shiftr (n + 50) 5 in
  let preceding :=
    DAYS_BEFORE_MONTH month + (if (2 <? month) && leapyear then 1 else 0) in
  if n <? preceding then
    let month := month - 1 in
    let preceding :=
      preceding
      - (DAYS_IN_MONTH month + (if (month =? 2) && leapyear then 1 else 0)) in
    mkdate year month (n - preceding + 1)
  else mkdate year month (n - preceding + 1).

(** The leap year test of [ord2ymd], on the counts of 100, 4 and 1 year
    cycles. *)
Definition leap_of (n100 n4 n1 : Z) : bool :=
  (n1 =? 3) && (negb (n4 =? 24) || (n100 =? 3)).

Definition month_length (leapyear : bool) (m : Z) : Z :=
  DAYS_IN_MONTH m + (if (m =? 2) && leapyear then 1 else 0).

(** [month_day] finds day [d] of month [m] from its day of the year. *)
Definition month_day_check (leapyear : bool) (m d : Z) : bool :=
  let k := DAYS_BEFORE_MONTH m + (if (2 <? m) && leapyear then 1 else 0) + d - 1 in
  let r := month_day leapyear 0 k in
  (month r =? m) && (day r =? d) && (0 <=? k)
  && (k <? 365 + (if leapyear then 1 else 0))
  && (negb (k =? 365) || ((m =? 12) && (d =? 31))).

Definition month_day_table (leapyear : bool) : bool :=
  forallb
    (fun m => forallb (month_day_check leapyear m) (seqZ 1 (month_length leapyear m)))
    (seqZ 1 12).

(** The day after, on the calendar: the day of the month moves on, past the
    end of the month the month does, past December the year. *)
Definition next_day (d : datetime) : datetime :=
  if day d <? days_in_month (year d) (month d)
  then mkdate (year d) (month d) (day d + 1)
  else if month d <? 12 then mkdate (year d) (month d + 1) 1
  else mkdate (year d + 1) 1 1.

(** The day before, on the calendar. *)
Definition prev_day (d : datetime) : datetime :=
  if 1 <? day d then mkdate (year d) (month d) (day d - 1)
  else if 1 <? month d
  then mkdate (year d) (month d - 1) (days_in_month (year d) (month d - 1))
  else mkdate (year d - 1) 12 31.

(** [datetime.min] and [datetime.max], as dates. *)
Definition FIRST : datetime := mkdate 1 1 1.
Definition LAST : datetime := mkdate 9999 12 31.

Definition is_digit (c : ascii) : bool :=
  let n := N_of_ascii c in ((48 <=? n) && (n <=? 57))%N.

Fixpoint all_digits (s : string) : bool :=
  match s with
  | "" => true
  | String c s' => is_digit c && all_digits s'
  end.

(** The number a string of decimal digits denotes. *)
Fixpoint decimal_value_from (acc : Z) (s : string) : Z :=
  match s with
  | "" => acc
  | String c s' => decimal_value_from (10 * acc + (Z.of_N (N_of_ascii c) - 48)) s'
  end.

Definition decimal_value (s : string) : Z := decimal_value_from 0 s.

(** [s] is exactly [width] decimal digits and denotes [n]: a numeral padded
    with zeros. *)
Definition renders (width : nat) (n : Z) (s : string) : Prop :=
  String.length s = width /\ all_digits s = true /\ decimal_value s = n.

Definition digit_char (n : Z) : ascii := pretty_N_char (Z.to_N n).

Definition starts_with_zero (s : string) : bool :=
  match s with
  | "" => false
  | String c _ => Ascii.eqb c "0"
  end.

(** [s] is the decimal numeral of [n], not padded: decimal digits that
    denote [n], the first of them not a zero. *)
Definition numeral (n : Z) (s : string) : Prop :=
  all_digits s = true /\ decimal_value s = n /\ starts_with_zero s = false.

(** The key of a date in [flights_by_date]. *)
Definition key_of (t : datetime) : string :=
  date_key (strftime_d t) (strftime_m t) (strftime_Y t).


(** The shape of every key: two digits, a hyphen, two digits, a hyphen and
    the digits of the year, at least one. *)
Definition is_DD_MM_Y (s : string) : bool :=
  match list_ascii_of_string s with
  | d1 :: d2 :: h1 :: m1 :: m2 :: h2 :: y1 :: ys =>
    is_digit d1 && is_digit d2 && Ascii.eqb h1 "-"
    && is_digit m1 && is_digit m2 && Ascii.eqb h2 "-"
    && is_digit y1 && forallb is_digit ys
  | _ => false
  end.

(** The date a key of that shape denotes. *)
Definition key_datetime (s : string) : datetime :=
  mkdate (decimal_value (substring 6 4 s)) (decimal_value (substring 3 2 s))
         (decimal_value (substring 0 2 s)).

(** The request the handler sends for a date and a movement. *)
Definition request_for (movement : MovementType.t) (t : datetime) : request :=
  mkRequest movement port (strftime_d t) (strftime_m t) (strftime_Y t).

(** A validator that accepts a [str] and nothing else, as pydantic 2 does. *)
Definition strict_str (v : json) : option string :=
  match v with
  | JStr s => Some s
  | _ => None
  end.

(** The class name of an exception, a stand-in for [str(e)]. *)
Definition exception_name (e : exception) : string :=
  match e with
  | OverflowError => "OverflowError"
  | IndexError => "IndexError"
  | KeyError _ => "KeyError"
  | TypeError _ => "TypeError"
  | AttributeError _ => "AttributeError"
  | ValidationError _ => "ValidationError"
  end.

Section Summary.

Variable validate_str : json -> option string.
Variable str_exc : exception -> string.

(** The flights one reply adds to its bucket. *)
Definition contribution (r : reply) : list FlightDetails :=
  match r with
  | Json (JList data) =>
    match comprehension validate_str data with
    | inr flight_details => flight_details
    | inl _ => []
    end
  | _ => []
  end.

(** The text recorded for a reply that adds nothing, [None] for one that is
    a list of well-formed records. *)
Definition failure (r : reply) : option string :=
  match r with
  | RequestError msg => Some ("Network error: " +:+ msg)
  | HTTPStatusError status_code text =>
    Some ("API error " +:+ pretty status_code +:+ ": " +:+ text)
  | OtherError msg => Some ("Unexpected error: " +:+ msg)
  | Json (JList data) =>
    match comprehension validate_str data with
    | inr _ => None
    | inl e => Some ("Unexpected error: " +:+ str_exc e)
    end
  | Json _ => Some "Unexpected response format"
  end.

(** The entries one fetch leaves in [api_errors]. *)
Definition failure_entries (current_date : string) (movement : MovementType.t)
    (r : reply) : list FetchError :=
  match failure r with
  | Some err => [mkFetchError current_date (movement_label movement) err]
  | None => []
  end.

Variable upstream : request -> reply.

(** What the two fetches of a date leave under its key. *)
Definition date_entry (t : datetime) : DateFlights :=
  mkDateFlights
    (contribution (upstream (request_for MovementType.departures t)))
    (contribution (upstream (request_for MovementType.arrivals t))).

(** What the two fetches of a date leave in [api_errors]. *)
Definition date_errors (t : datetime) : list FetchError :=
  failure_entries (key_of t) MovementType.departures
    (upstream (request_for MovementType.departures t))
  ++ failure_entries (key_of t) MovementType.arrivals
       (upstream (request_for MovementType.arrivals t)).

(** The entries the fetch of a pair leaves. *)
Definition pair_errors (p : datetime * MovementType.t) : list FetchError :=
  failure_entries (key_of p.1) p.2 (upstream (request_for p.2 p.1)).

End Summary.

(** A date with a day before and a day after it among the dates of
    [datetime]. *)
Definition inner_date (now : datetime) : Prop :=
  valid_date now /\ now <> FIRST /\ now <> LAST.

(** The three dates of the window around [now]. *)
Definition window (now : datetime) : list datetime :=
  [prev_day now; now; next_day now].

(** The bucket of a date that a movement selects. *)
Definition bucket (movement : MovementType.t) (df : DateFlights) : list FlightDetails :=
  match movement with
  | MovementType.departures => departures df
  | MovementType.arrivals => arrivals df
  end.

(** The (date, movement) pairs of a window, in the order of the loops. *)
Definition pairs (now : datetime) : list (datetime * MovementType.t) :=
  t ← window now; (fun movement => (t, movement)) <$> movements.

(** An entry of [api_errors] that belongs to the pair of [t] and [m]. *)
Definition of_pair (t : datetime) (m : MovementType.t) (e : FetchError) : Prop :=
  date e = key_of t /\ movement e = movement_label m.

#[global] Instance of_pair_dec t m e : Decision (of_pair t m e).
Proof. unfold of_pair. apply _. Defined.

(** A record of the upstream: the five fields the handler reads. *)
Record upstream_record := mkRecord {
  direction : string;
  heure : string;
  compagnie : string;
  numVol : string;
  commentaire : option string
}.

(** The JSON value of the field [commentaire]: a string or null. *)
Definition nullable (c : option string) : json :=
  match c with
  | Some s => JStr s
  | None => JNull
  end.

(** [item] is a dict that holds the fields of [r] under their keys. *)
Definition is_record (item : json) (r : upstream_record) : Prop :=
  getitem item "direction" = inr (JStr (direction r))
  /\ getitem item "heure" = inr (JStr (heure r))
  /\ getitem item "compagnie" = inr (JStr (compagnie r))
  /\ getitem item "numVol" = inr (JStr (numVol r))
  /\ getitem item "commentaire" = inr (nullable (commentaire r)).

(** The flight the spec gives for a record. *)
Definition flight_of (r : upstream_record) : FlightDetails :=
  mkFlightDetails (direction r) (heure r) (strip (compagnie r)) (numVol r)
                  (commentaire r).

Fixpoint all_space (s : string) : bool :=
  match s with
  | "" => true
  | String c s' => isspace c && all_space s'
  end.

Definition starts_with_space (s : string) : bool :=
  match s with
  | "" => false
  | String c _ => isspace c
  end.

Fixpoint ends_with_space (s : string) : bool :=
  match s with
  | "" => false
  | String c "" => isspace c
  | String _ s' => ends_with_space s'
  end.

(** The five keys of an upstream record. *)
Definition record_keys : list string :=
  ["direction"; "heure"; "compagnie"; "numVol"; "commentaire"].

(** The single record of the mocked departures response. *)
Definition mocked_record : json :=
  JDict [("direction", JStr "TUN"); ("heure", JStr "14:30");
         ("compagnie", JStr "Nouvelair"); ("numVol", JStr "BJ101");
         ("commentaire", JNull)].

Section WindowResult.

Variable validate_str : json -> option string.
Variable str_exc : exception -> string.
Variable upstream : request -> reply.

(** The dictionary the handler builds for the window around [now]. *)
Definition window_body (now : datetime) : gmap string DateFlights :=
  <[key_of (next_day now) := date_entry validate_str upstream (next_day now)]>
    (<[key_of now := date_entry validate_str upstream now]>
       (<[key_of (prev_day now) := date_entry validate_str upstream (prev_day now)]> ∅)).

(** The errors it collects on the way. *)
Definition window_errors (now : datetime) : list FetchError :=
  date_errors validate_str str_exc upstream (prev_day now)
  ++ date_errors validate_str str_exc upstream now
  ++ date_errors validate_str str_exc upstream (next_day now).

End WindowResult.

(** ** Sample inputs *)

(** An upstream that never answers. *)
Definition unreachable_upstream (rq : request) : reply :=
  RequestError "timed out".

(** An upstream with one departure on the first of March 2024 and nothing
    else. *)
Definition mocked_upstream (rq : request) : reply :=
  if decide (rq = mkRequest MovementType.departures port "01" "03" "2024")
  then Json (JList [mocked_record])
  else Json (JList []).

(** An upstream that answers every request with an empty object. *)
Definition object_upstream (rq : request) : reply := Json (JDict []).

(** An upstream whose service is down for arrivals. *)
Definition half_upstream (rq : request) : reply :=
  match frmmvtCod rq with
  | MovementType.departures => Json (JList [mocked_record])
  | MovementType.arrivals => HTTPStatusError 503 "Service Unavailable"
  end.

(** Accumulators with one date and one recorded error. *)
Definition partial_state : state :=
  mkState (<["01-03-2024" := DateFlights_default]> ∅)
          [mkFetchError "01-03-2024" "arrivals" "Network error: timed out"].

(** The mocked upstream with its arrivals of the first of March 2024 timing
    out. *)
Definition timing_out_upstream (rq : request) : reply :=
  if decide (rq = request_for MovementType.arrivals (mkdate 2024 3 1))
  then RequestError "timed out"
  else mocked_upstream rq.

(** An upstream whose second record has no field but [direction]. *)
Definition broken_upstream (rq : request) : reply :=
  Json (JList [mocked_record; JDict [("direction", JStr "TUN")]]).

(** Accumulators with no date and one recorded error, which the loops never
    leave. *)
Definition empty_state : state :=
  mkState ∅ [mkFetchError "01-03-2024" "arrivals" "Network error: timed out"].

(** ** The URL of a fetch *)

Section Url.

(** How an f-string renders a member of [MovementType]: its value or its
    name, by the version of Python. *)
Variable format_movement : MovementType.t -> string.

(** The f-string of the handler, piece by piece. *)
Definition url (movement : MovementType.t) (day month year : string) : string :=
  "https://www.oaca.nat.tn/vols/api/flight/filter"
  +:+ "?frmmvtCod=" +:+ format_movement movement
  +:+ "&frmaeropVil=-1"
  +:+ "&frmnumVol="
  +:+ "&frmairport=" +:+ port
  +:+ "&frmday=" +:+ day
  +:+ "&frmmonth=" +:+ month
  +:+ "&frmacty=" +:+ year
  +:+ "&frmhour=0".

End Url.

(** The two renderings of a member: [D] and [A], or the qualified name. *)
Definition format_value (m : MovementType.t) : string := MovementType.value m.

Definition format_name (m : MovementType.t) : string :=
  match m with
  | MovementType.departures => "MovementType.departures"
  | MovementType.arrivals => "MovementType.arrivals"
  end.

(** No character of [s] is an ampersand. *)
Fixpoint no_ampersand (s : string) : bool :=
  match s with
  | "" => true
  | String c s' => negb (Ascii.eqb c "&") && no_ampersand s'
  end.

(** ** What the loops keep *)

(** [st'] holds all that [st] holds, in the same order: the errors of [st]
    start those of [st'], every key of [st] is a key of [st'], and under it
    the departures and the arrivals of [st] start those of [st']. *)
Definition grows (st st' : state) : Prop :=
  api_errors st `prefix_of` api_errors st'
  /\ forall k df,
       flights_by_date st !! k = Some df ->
       exists df',
         flights_by_date st' !! k = Some df'
         /\ departures df `prefix_of` departures df'
         /\ arrivals df `prefix_of` arrivals df'.

(** The mocked record with a field the handler does not read, in another
    order. *)
Definition verbose_record : json :=
  JDict [("terminal", JStr "T1"); ("commentaire", JNull); ("numVol", JStr "BJ101");
         ("compagnie", JStr "Nouvelair"); ("heure", JStr "14:30");
         ("direction", JStr "TUN")].

(** An upstream whose companies come with whitespace around them. *)
Definition padded_upstream (rq : request) : reply :=
  Json (JList [JDict [("direction", JStr "TUN"); ("heure", JStr "14:30");
                      ("compagnie", JStr " TunisAir "); ("numVol", JStr "TU712");
                      ("commentaire", JStr "Retard")]]).

(** * Properties *)

Ltac dlia := Z.div_mod_to_equations; lia.

Ltac month_cases m :=
  let H := fresh in
  assert (m = 1 \/ m = 2 \/ m = 3 \/ m = 4 \/ m = 5 \/ m = 6 \/ m = 7
          \/ m = 8 \/ m = 9 \/ m = 10 \/ m = 11 \/ m = 12) as H by lia;
  repeat (destruct H as [H|H]); subst m.

(** ** The model on concrete inputs *)

Example get_dates_leap_day :
  get_dates (mkdate 2024 3 1)
  = inr ["29"; "02"; "2024"; "01"; "03"; "2024"; "02"; "03"; "2024"].
Proof. reflexivity. Qed.

Example get_dates_new_year :
  get_dates (mkdate 2024 1 1)
  = inr ["31"; "12"; "2023"; "01"; "01"; "2024"; "02"; "01"; "2024"].
Proof. reflexivity. Qed.

Example get_dates_century :
  get_dates (mkdate 2100 2 28)
  = inr ["27"; "02"; "2100"; "28"; "02"; "2100"; "01"; "03"; "2100"].
Proof. reflexivity. Qed.

Example get_dates_year_999 :
  get_dates (mkdate 999 12 31)
  = inr ["30"; "12"; "999"; "31"; "12"; "999"; "01"; "01"; "1000"].
Proof. reflexivity. Qed.

Example get_dates_first_day : get_dates FIRST = inl OverflowError.
Proof. reflexivity. Qed.

Example ordinal_of_last_day : toordinal LAST = MAXORDINAL.
Proof. reflexivity. Qed.

Example strip_both_ends : strip "  Tunis Air  " = "Tunis Air".
Proof. reflexivity. Qed.

Example strip_all_space : strip "   " = "".
Proof. reflexivity. Qed.

Example range_of_nine : range 0 9 3 = [0; 3; 6]%nat.
Proof. reflexivity. Qed.

Example short_list_of_dates :
  aggregate strict_str exception_name mocked_upstream ["01"; "03"] = inl IndexError.
Proof. reflexivity. Qed.

Example handler_on_last_day :
  get_djerba_flights strict_str exception_name mocked_upstream LAST
  = Uncaught OverflowError.
Proof. reflexivity. Qed.

Example handler_on_mocked_upstream :
  get_djerba_flights strict_str exception_name mocked_upstream (mkdate 2024 3 1)
  = Return
      (<["02-03-2024" := DateFlights_default]>
         (<["01-03-2024" :=
              mkDateFlights
                [mkFlightDetails "TUN" "14:30" "Nouvelair" "BJ101" None] []]>
            (<["29-02-2024" := DateFlights_default]> ∅))).
Proof. vm_compute. reflexivity. Qed.

Example handler_on_unreachable_upstream :
  get_djerba_flights strict_str exception_name unreachable_upstream (mkdate 2024 3 1)
  = Return
      (<["02-03-2024" := DateFlights_default]>
         (<["01-03-2024" := DateFlights_default]>
            (<["29-02-2024" := DateFlights_default]> ∅))).
Proof. vm_compute. reflexivity. Qed.

Example errors_on_half_upstream :
  (api_errors <$> (dates ← get_dates (mkdate 2024 3 1);
                   aggregate strict_str exception_name half_upstream dates))
  = inr [ mkFetchError "29-02-2024" "arrivals" "API error 503: Service Unavailable";
          mkFetchError "01-03-2024" "arrivals" "API error 503: Service Unavailable";
          mkFetchError "02-03-2024" "arrivals" "API error 503: Service Unavailable" ].
Proof. vm_compute. reflexivity. Qed.

(** ** The calendar: ordinals and dates *)

Lemma is_leap_decomp a b c e :
  0 <= b < 4 -> 0 <= c < 25 -> 0 <= e < 4 ->
  is_leap (400 * a + 100 * b + 4 * c + e + 1) = leap_of b c e.
Proof.
  intros Hb Hc He. unfold is_leap, leap_of.
  set (y := 400 * a + 100 * b + 4 * c + e + 1).
  assert (y mod 4 = (e + 1) mod 4) as -> by (subst y; dlia).
  assert (y mod 100 = (4 * c + e + 1) mod 100) as -> by (subst y; dlia).
  assert (y mod 400 = (100 * b + 4 * c + e + 1) mod 400) as -> by (subst y; dlia).
  destruct (e =? 3) eqn:E3; destruct (c =? 24) eqn:E24; destruct (b =? 3) eqn:Eb;
    simpl;
    repeat match goal with
           | |- context [?x =? ?y] => destruct (Z.eqb_spec x y)
           end;
    simpl; try reflexivity; dlia.
Qed.

Lemma year_decomp y : 1 <= y ->
  exists a b c e, 0 <= a /\ 0 <= b < 4 /\ 0 <= c < 25 /\ 0 <= e < 4 /\
    y = 400 * a + 100 * b + 4 * c + e + 1.
Proof.
  intros Hy. exists ((y - 1) / 400), ((y - 1) mod 400 / 100),
    ((y - 1) mod 100 / 4), ((y - 1) mod 4). dlia.
Qed.

Lemma days_before_year_decomp a b c e :
  0 <= a -> 0 <= b < 4 -> 0 <= c < 25 -> 0 <= e < 4 ->
  days_before_year (400 * a + 100 * b + 4 * c + e + 1)
  = 146097 * a + 36524 * b + 1461 * c + 365 * e.
Proof. intros. unfold days_before_year. dlia. Qed.

Lemma ord2ymd_unfold n :
  ord2ymd n =
    let n0 := n - 1 in
    let n400 := n0 / DI400Y in
    let r400 := n0 mod DI400Y in
    let n100 := r400 / DI100Y in
    let r100 := r400 mod DI100Y in
    let n4 := r100 / DI4Y in
    let r4 := r100 mod DI4Y in
    let n1 := r4 / 365 in
    let r1 := r4 mod 365 in
    let year := n400 * 400 + 1 + (n100 * 100 + n4 * 4 + n1) in
    if (n1 =? 4) || (n100 =? 4) then mkdate (year - 1) 12 31
    else month_day (leap_of n100 n4 n1) year r1.
Proof. reflexivity. Qed.

(** A day that is not the 366th of its year: the four divisions find the
    cycles the year was split into. *)
Lemma ord2ymd_common a b c e k :
  0 <= a -> 0 <= b < 4 -> 0 <= c < 25 -> 0 <= e < 4 -> 0 <= k < 365 ->
  ord2ymd (146097 * a + 36524 * b + 1461 * c + 365 * e + k + 1)
  = month_day (leap_of b c e) (400 * a + 100 * b + 4 * c + e + 1) k.
Proof.
  intros Ha Hb Hc He Hk. rewrite ord2ymd_unfold. unfold DI400Y, DI100Y, DI4Y.
  set (n0 := 146097 * a + 36524 * b + 1461 * c + 365 * e + k + 1 - 1).
  assert (n0 / 146097 = a) as E400 by (subst n0; dlia).
  assert (n0 mod 146097 = 36524 * b + 1461 * c + 365 * e + k) as R400 by (subst n0; dlia).
  cbv zeta. rewrite E400, R400.
  assert ((36524 * b + 1461 * c + 365 * e + k) / 36524 = b) as -> by dlia.
  assert ((36524 * b + 1461 * c + 365 * e + k) mod 36524 = 1461 * c + 365 * e + k) as -> by dlia.
  assert ((1461 * c + 365 * e + k) / 1461 = c) as -> by dlia.
  assert ((1461 * c + 365 * e + k) mod 1461 = 365 * e + k) as -> by dlia.
  assert ((365 * e + k) / 365 = e) as -> by dlia.
  assert ((365 * e + k) mod 365 = k) as -> by dlia.
  destruct (Z.eqb_spec e 4); [lia|]. destruct (Z.eqb_spec b 4); [lia|]. simpl.
  f_equal. lia.
Qed.

(** The 366th day of a leap year, where one of the divisions overshoots. *)
Lemma ord2ymd_last a b c e :
  0 <= a -> 0 <= b < 4 -> 0 <= c < 25 -> 0 <= e < 4 ->
  leap_of b c e = true ->
  ord2ymd (146097 * a + 36524 * b + 1461 * c + 365 * e + 365 + 1)
  = mkdate (400 * a + 100 * b + 4 * c + e + 1) 12 31.
Proof.
  intros Ha Hb Hc He Hl. rewrite ord2ymd_unfold. unfold DI400Y, DI100Y, DI4Y.
  unfold leap_of in Hl.
  apply andb_true_iff in Hl as [He3 Hl]. apply Z.eqb_eq in He3. subst e.
  set (n0 := 146097 * a + 36524 * b + 1461 * c + 365 * 3 + 365 + 1 - 1).
  assert (n0 / 146097 = a) as E400 by (subst n0; dlia).
  assert (n0 mod 146097 = 36524 * b + 1461 * c + 1460) as R400 by (subst n0; dlia).
  cbv zeta. rewrite E400, R400.
  destruct (Z.eqb_spec c 24) as [->|Hc24].
  - simpl in Hl. apply Z.eqb_eq in Hl. subst b.
    assert ((36524 * 3 + 1461 * 24 + 1460) / 36524 = 4) as -> by reflexivity.
    rewrite orb_true_r. f_equal. dlia.
  - assert ((36524 * b + 1461 * c + 1460) / 36524 = b) as -> by dlia.
    assert ((36524 * b + 1461 * c + 1460) mod 36524 = 1461 * c + 1460) as -> by dlia.
    assert ((1461 * c + 1460) / 1461 = c) as -> by dlia.
    assert ((1461 * c + 1460) mod 1461 = 1460) as -> by dlia.
    change (1460 / 365) with 4. simpl. f_equal. lia.
Qed.

Lemma month_day_table_ok : month_day_table true && month_day_table false = true.
Proof. vm_compute. reflexivity. Qed.

Lemma month_day_year l y y' k :
  month_day l y k = mkdate y (month (month_day l y' k)) (day (month_day l y' k)).
Proof. unfold month_day. cbv zeta. destruct (_ <? _); reflexivity. Qed.

Lemma month_day_checked l m d :
  1 <= m <= 12 -> 1 <= d <= month_length l m -> month_day_check l m d = true.
Proof.
  intros Hm Hd.
  assert (month_day_table l = true) as Ht.
  { pose proof month_day_table_ok as H. apply andb_true_iff in H. destruct l; tauto. }
  unfold month_day_table in Ht. rewrite forallb_forall in Ht.
  specialize (Ht m). rewrite forallb_forall in Ht. apply Ht.
  - apply list_elem_of_In, elem_of_seqZ. lia.
  - apply list_elem_of_In, elem_of_seqZ. lia.
Qed.

Lemma days_in_month_length y m : days_in_month y m = month_length (is_leap y) m.
Proof. unfold days_in_month, month_length. destruct (m =? 2) eqn:E; simpl; [|lia].
  apply Z.eqb_eq in E. subst. destruct (is_leap y); reflexivity. Qed.

(** The ordinal of a date gives the date back. *)
Theorem ord2ymd_ymd2ord d : 1 <= year d -> 1 <= month d <= 12 ->
  1 <= day d <= days_in_month (year d) (month d) -> ord2ymd (ymd2ord d) = d.
Proof.
  destruct d as [y m dd]. simpl. intros Hy Hm Hd.
  rewrite days_in_month_length in Hd.
  pose proof (month_day_checked _ _ _ Hm Hd) as Hc.
  unfold month_day_check in Hc. cbv zeta in Hc.
  repeat (apply andb_true_iff in Hc as [Hc ?]).
  destruct (year_decomp y Hy) as (a & b & c & e & Ha & Hb & Hcc & He & ->).
  unfold ymd2ord, days_before_month. simpl.
  rewrite days_before_year_decomp by assumption.
  rewrite is_leap_decomp in * by assumption.
  set (k := DAYS_BEFORE_MONTH m + (if (2 <? m) && leap_of b c e then 1 else 0) + dd - 1) in *.
  replace (146097 * a + 36524 * b + 1461 * c + 365 * e +
     (DAYS_BEFORE_MONTH m + (if (2 <? m) && leap_of b c e then 1 else 0)) + dd)
    with (146097 * a + 36524 * b + 1461 * c + 365 * e + k + 1) by (subst k; lia).
  destruct (Z.eqb_spec k 365) as [Ek|Ek].
  - simpl in *. apply andb_true_iff in H as [Hm12 Hd31].
    apply Z.eqb_eq in Hm12, Hd31. subst m dd. rewrite Ek.
    destruct (leap_of b c e) eqn:El.
    + rewrite ord2ymd_last by assumption. reflexivity.
    + simpl in k. subst k. lia.
  - rewrite ord2ymd_common; try assumption.
    + rewrite (month_day_year _ _ 0). f_equal; lia.
    + destruct (leap_of b c e); lia.
Qed.

Lemma days_before_year_succ y :
  days_before_year (y + 1) = days_before_year y + 365 + (if is_leap y then 1 else 0).
Proof.
  unfold days_before_year, is_leap.
  destruct (Z.eqb_spec (y mod 4) 0), (Z.eqb_spec (y mod 100) 0),
    (Z.eqb_spec (y mod 400) 0); simpl; dlia.
Qed.

Lemma days_before_month_succ y m : 1 <= m < 12 ->
  days_before_month y (m + 1) = days_before_month y m + days_in_month y m.
Proof.
  intros Hm. unfold days_before_month, days_in_month.
  month_cases m; try lia; destruct (is_leap y); reflexivity.
Qed.

Lemma days_in_month_bounds y m : 1 <= m <= 12 -> 28 <= days_in_month y m <= 31.
Proof.
  intros Hm. unfold days_in_month.
  month_cases m; destruct (is_leap y); simpl; lia.
Qed.

Lemma ymd2ord_next_day d :
  1 <= month d <= 12 -> 1 <= day d <= days_in_month (year d) (month d) ->
  ymd2ord (next_day d) = ymd2ord d + 1.
Proof.
  destruct d as [y m dd]. unfold next_day, ymd2ord. simpl. intros Hm Hd.
  destruct (Z.ltb_spec dd (days_in_month y m)); simpl; [lia|].
  destruct (Z.ltb_spec m 12); simpl.
  - rewrite days_before_month_succ by lia. lia.
  - assert (m = 12) as -> by lia. rewrite days_before_year_succ.
    unfold days_before_month, days_in_month in *. simpl in *.
    destruct (is_leap y); lia.
Qed.

Lemma ymd2ord_prev_day d :
  1 <= month d <= 12 -> 1 <= day d <= days_in_month (year d) (month d) ->
  ymd2ord (prev_day d) = ymd2ord d - 1.
Proof.
  destruct d as [y m dd]. unfold prev_day, ymd2ord. simpl. intros Hm Hd.
  destruct (Z.ltb_spec 1 dd); simpl; [lia|].
  destruct (Z.ltb_spec 1 m); simpl.
  - replace (days_before_month y m) with (days_before_month y (m - 1 + 1))
      by (f_equal; lia).
    rewrite days_before_month_succ by lia. lia.
  - assert (m = 1) as -> by lia.
    replace (days_before_year y) with (days_before_year (y - 1 + 1)) by (f_equal; lia).
    rewrite days_before_year_succ.
    unfold days_before_month. simpl. destruct (is_leap (y - 1)); lia.
Qed.

Lemma valid_next_day d : valid_date d -> d <> LAST -> valid_date (next_day d).
Proof.
  destruct d as [y m dd]. unfold valid_date, next_day, MINYEAR, MAXYEAR, LAST.
  simpl. intros (Hy & Hm & Hd) Hne.
  destruct (Z.ltb_spec dd (days_in_month y m)); simpl; [lia|].
  destruct (Z.ltb_spec m 12); simpl.
  - pose proof (days_in_month_bounds y (m + 1)). lia.
  - assert (m = 12) as -> by lia.
    assert (dd = 31) as -> by (unfold days_in_month in *; simpl in *; lia).
    assert (y <> 9999) by congruence.
    unfold days_in_month. simpl. lia.
Qed.

Lemma valid_prev_day d : valid_date d -> d <> FIRST -> valid_date (prev_day d).
Proof.
  destruct d as [y m dd]. unfold valid_date, prev_day, MINYEAR, MAXYEAR, FIRST.
  simpl. intros (Hy & Hm & Hd) Hne.
  destruct (Z.ltb_spec 1 dd); simpl; [lia|].
  destruct (Z.ltb_spec 1 m); simpl.
  - pose proof (days_in_month_bounds y (m - 1)). lia.
  - assert (m = 1) as -> by lia. assert (dd = 1) as -> by lia.
    assert (y <> 1) by congruence.
    unfold days_in_month. simpl. lia.
Qed.

Lemma days_before_year_mono y y' : y <= y' -> days_before_year y <= days_before_year y'.
Proof. unfold days_before_year. intros. dlia. Qed.

Lemma ymd2ord_bounds d : valid_date d -> 1 <= ymd2ord d <= MAXORDINAL.
Proof.
  destruct d as [y m dd]. unfold valid_date, MINYEAR, MAXYEAR. simpl.
  intros (Hy & Hm & Hd). unfold ymd2ord. simpl.
  pose proof (days_before_year_mono 1 y ltac:(lia)) as H1.
  pose proof (days_before_year_mono (y + 1) 10000 ltac:(lia)) as H2.
  rewrite days_before_year_succ in H2.
  change (days_before_year 1) with 0 in H1.
  change (days_before_year 10000) with MAXORDINAL in H2.
  assert (0 <= days_before_month y m /\
          days_before_month y m + dd <= 365 + (if is_leap y then 1 else 0)).
  { unfold days_before_month, days_in_month in *.
    month_cases m; destruct (is_leap y); simpl in *; lia. }
  lia.
Qed.

(** Adding a day on ordinals is the day after on the calendar. *)
Lemma add_days_next d : valid_date d -> d <> LAST -> add_days d 1 = Some (next_day d).
Proof.
  intros Hv Hne. unfold add_days, toordinal, fromordinal.
  pose proof (valid_next_day d Hv Hne) as Hv'.
  pose proof (ymd2ord_bounds _ Hv') as Hb.
  destruct Hv as (Hy & Hm & Hd).
  rewrite <- ymd2ord_next_day by assumption.
  destruct (Z.ltb_spec 0 (ymd2ord (next_day d))); [|lia].
  destruct (Z.leb_spec (ymd2ord (next_day d)) MAXORDINAL); [|lia].
  simpl. f_equal. destruct Hv' as (? & ? & ?).
  apply ord2ymd_ymd2ord; unfold MINYEAR in *; lia.
Qed.

Lemma add_days_prev d :
  valid_date d -> d <> FIRST -> add_days d (-1) = Some (prev_day d).
Proof.
  intros Hv Hne. unfold add_days, toordinal, fromordinal.
  pose proof (valid_prev_day d Hv Hne) as Hv'.
  pose proof (ymd2ord_bounds _ Hv') as Hb.
  destruct Hv as (Hy & Hm & Hd).
  replace (ymd2ord d + -1) with (ymd2ord (prev_day d))
    by (rewrite ymd2ord_prev_day by assumption; lia).
  destruct (Z.ltb_spec 0 (ymd2ord (prev_day d))); [|lia].
  destruct (Z.leb_spec (ymd2ord (prev_day d)) MAXORDINAL); [|lia].
  simpl. f_equal. destruct Hv' as (? & ? & ?).
  apply ord2ymd_ymd2ord; unfold MINYEAR in *; lia.
Qed.
(** ** Numerals padded with zeros *)

Lemma pretty_N_go_small x s : (0 < x < 10)%N ->
  pretty_N_go x s = String (pretty_N_char x) s.
Proof.
  intros Hx. rewrite pretty_N_go_step by lia.
  rewrite (N.div_small x 10), (N.mod_small x 10) by lia. reflexivity.
Qed.

Lemma pretty_Z_go n : 0 < n -> pretty n = pretty_N_go (Z.to_N n) "".
Proof. destruct n; try lia. intros _. reflexivity. Qed.

Lemma pretty_N_go_Z n s : 10 <= n ->
  pretty_N_go (Z.to_N n) s
  = pretty_N_go (Z.to_N (n / 10)) (String (digit_char (n mod 10)) s).
Proof.
  intros Hn. rewrite pretty_N_go_step by lia. unfold digit_char.
  rewrite Z2N.inj_div, Z2N.inj_mod by lia. reflexivity.
Qed.

Lemma pretty_N_go_Z_small n s : 0 < n < 10 ->
  pretty_N_go (Z.to_N n) s = String (digit_char n) s.
Proof. intros Hn. apply pretty_N_go_small. lia. Qed.

Lemma zfill2_pretty n : 0 < n < 100 ->
  zfill 2 (pretty n) = String (digit_char (n / 10)) (String (digit_char (n mod 10)) "").
Proof.
  intros Hn. rewrite pretty_Z_go by lia.
  destruct (Z.lt_ge_cases n 10).
  - rewrite pretty_N_go_Z_small by lia.
    rewrite (Z.div_small n 10), (Z.mod_small n 10) by lia. reflexivity.
  - rewrite pretty_N_go_Z by lia. rewrite pretty_N_go_Z_small by dlia. reflexivity.
Qed.

Lemma digit_char_digit n : is_digit (digit_char n) = true.
Proof.
  unfold digit_char, pretty_N_char.
  repeat (case_match; try reflexivity).
Qed.

Lemma digit_char_value n : 0 <= n < 10 ->
  Z.of_N (N_of_ascii (digit_char n)) - 48 = n.
Proof.
  intros Hn. destruct n as [|p|p]; [reflexivity| |lia].
  do 4 (try destruct p as [p|p|]; try lia; try reflexivity).
Qed.

Lemma renders_2 n : 0 < n < 100 -> renders 2 n (zfill 2 (pretty n)).
Proof.
  intros Hn. rewrite zfill2_pretty by assumption. unfold renders.
  split; [reflexivity|]. split.
  - simpl. rewrite !digit_char_digit. reflexivity.
  - unfold decimal_value. simpl. rewrite !digit_char_value by dlia. dlia.
Qed.

Lemma digit_char_nonzero n : 0 < n < 10 -> Ascii.eqb (digit_char n) "0" = false.
Proof.
  intros Hn. destruct n as [|p|p]; [lia| |lia].
  do 4 (try destruct p as [p|p|]; try lia; try reflexivity).
Qed.

(** The decimal numeral of a year, by the number of its digits. *)
Lemma pretty_year n : 0 < n < 10000 ->
  (n < 10 /\ pretty n = String (digit_char n) "")
  \/ (10 <= n < 100
      /\ pretty n = String (digit_char (n / 10)) (String (digit_char (n mod 10)) ""))
  \/ (100 <= n < 1000
      /\ pretty n = String (digit_char (n / 100))
                      (String (digit_char (n / 10 mod 10))
                         (String (digit_char (n mod 10)) "")))
  \/ (1000 <= n
      /\ pretty n = String (digit_char (n / 1000))
                      (String (digit_char (n / 100 mod 10))
                         (String (digit_char (n / 10 mod 10))
                            (String (digit_char (n mod 10)) "")))).
Proof.
  intros Hn. rewrite pretty_Z_go by lia.
  assert (n / 10 / 10 = n / 100) as E2 by dlia.
  destruct (Z.lt_ge_cases n 10).
  { left. split; [assumption|]. apply pretty_N_go_Z_small. lia. }
  right. rewrite pretty_N_go_Z by lia. destruct (Z.lt_ge_cases n 100).
  { left. split; [lia|]. apply pretty_N_go_Z_small. dlia. }
  right. rewrite pretty_N_go_Z by dlia. rewrite E2. destruct (Z.lt_ge_cases n 1000).
  { left. split; [lia|]. apply pretty_N_go_Z_small. dlia. }
  right. split; [assumption|]. rewrite pretty_N_go_Z by dlia.
  replace (n / 100 / 10) with (n / 1000) by dlia.
  apply pretty_N_go_Z_small. dlia.
Qed.

Lemma pretty_year_numeral n : 0 < n < 10000 ->
  numeral n (pretty n)
  /\ (1 <= String.length (pretty n) <= 4)%nat
  /\ (1000 <= n -> String.length (pretty n) = 4%nat)
  /\ (n < 1000 -> (String.length (pretty n) < 4)%nat).
Proof.
  intros Hn. unfold numeral, decimal_value.
  destruct (pretty_year n Hn) as [[H ->]|[[H ->]|[[H ->]|[H ->]]]]; simpl;
    rewrite ?digit_char_digit, ?digit_char_value, ?digit_char_nonzero by dlia;
    repeat split; try reflexivity; try lia; dlia.
Qed.

(** ** Keys of the result *)

Lemma valid_date_ranges t :
  valid_date t -> 0 < day t < 100 /\ 0 < month t < 100 /\ 0 < year t < 10000.
Proof.
  destruct t as [y m d]. unfold valid_date, MINYEAR, MAXYEAR. simpl.
  intros (Hy & Hm & Hd). pose proof (days_in_month_bounds y m Hm). lia.
Qed.

Lemma key_of_unfold t :
  valid_date t ->
  exists d1 d2 m1 m2,
    strftime_d t = String d1 (String d2 "")
    /\ strftime_m t = String m1 (String m2 "")
    /\ is_digit d1 = true /\ is_digit d2 = true
    /\ is_digit m1 = true /\ is_digit m2 = true
    /\ decimal_value (String d1 (String d2 "")) = day t
    /\ decimal_value (String m1 (String m2 "")) = month t
    /\ key_of t
       = String d1 (String d2 (String "-" (String m1 (String m2
           (String "-" (pretty (year t))))))).
Proof.
  intros Hv. destruct (valid_date_ranges t Hv) as (Hd & Hm & Hy).
  destruct (renders_2 _ Hd) as (Ld & Dd & Vd).
  destruct (renders_2 _ Hm) as (Lm & Dm & Vm).
  unfold key_of, date_key, strftime_d, strftime_m, strftime_Y in *.
  destruct (zfill 2 (pretty (day t))) as [|d1 [|d2 [|? ?]]]; try discriminate Ld.
  destruct (zfill 2 (pretty (month t))) as [|m1 [|m2 [|? ?]]]; try discriminate Lm.
  simpl in Dd, Dm.
  repeat match goal with
         | H : _ && _ = true |- _ => apply andb_true_iff in H as [? ?]
         end.
  exists d1, d2, m1, m2. repeat split; assumption || reflexivity.
Qed.

Lemma key_of_spec t :
  valid_date t -> is_DD_MM_Y (key_of t) = true /\ key_datetime (key_of t) = t.
Proof.
  intros Hv. destruct (valid_date_ranges t Hv) as (_ & _ & Hy).
  destruct (key_of_unfold t Hv)
    as (d1 & d2 & m1 & m2 & _ & _ & D1 & D2 & M1 & M2 & Vd & Vm & ->).
  destruct t as [y m d]. simpl in *. unfold is_DD_MM_Y, key_datetime.
  unfold decimal_value in *.
  destruct (pretty_year y Hy) as [[H ->]|[[H ->]|[[H ->]|[H ->]]]]; simpl;
    rewrite D1, D2, M1, M2, ?digit_char_digit, ?digit_char_value by dlia;
    (split; [reflexivity|]); simpl in Vd, Vm; f_equal; try assumption; dlia.
Qed.


Lemma key_of_inj t1 t2 :
  valid_date t1 -> valid_date t2 -> key_of t1 = key_of t2 -> t1 = t2.
Proof.
  intros H1 H2 E.
  rewrite <- (proj2 (key_of_spec t1 H1)), <- (proj2 (key_of_spec t2 H2)).
  f_equal. exact E.
Qed.

(** ** The window of [get_dates] *)

Lemma next_day_neq d : next_day d <> d.
Proof.
  destruct d as [y m dd]. unfold next_day. simpl.
  destruct (_ <? _); [|destruct (_ <? _)]; intros [=]; lia.
Qed.

Lemma prev_day_neq d :
  1 <= month d <= 12 -> 1 <= day d -> prev_day d <> d.
Proof.
  destruct d as [y m dd]. unfold prev_day. simpl. intros Hm Hd.
  destruct (Z.ltb_spec 1 dd); [intros [=]; lia|].
  destruct (Z.ltb_spec 1 m); intros [=]; lia.
Qed.

Lemma prev_next_neq d :
  1 <= month d <= 12 -> 1 <= day d <= days_in_month (year d) (month d) ->
  prev_day d <> next_day d.
Proof.
  intros Hm Hd E. apply (f_equal ymd2ord) in E.
  rewrite ymd2ord_prev_day, ymd2ord_next_day in E by assumption. lia.
Qed.

Lemma get_dates_window now :
  valid_date now -> now <> FIRST -> now <> LAST ->
  get_dates now
  = inr [ strftime_d (prev_day now); strftime_m (prev_day now);
          strftime_Y (prev_day now);
          strftime_d now; strftime_m now; strftime_Y now;
          strftime_d (next_day now); strftime_m (next_day now);
          strftime_Y (next_day now) ].
Proof.
  intros Hv Hf Hl. unfold get_dates.
  rewrite add_days_prev, add_days_next by assumption. reflexivity.
Qed.

(** ** One fetch, one date, the whole batch *)

Section AggregatorProperties.

Variable validate_str : json -> option string.
Variable str_exc : exception -> string.
Variable upstream : request -> reply.

Lemma extend_nil movement df : extend movement [] df = df.
Proof.
  unfold extend. destruct df as [ds arrs].
  destruct (decide _); simpl; rewrite app_nil_r; reflexivity.
Qed.

(** A fetch is a function of its own reply: it extends the bucket of its
    movement under its date and appends its own entries to the errors. *)
Lemma fetch_spec current_date day month year st movement df :
  flights_by_date st !! current_date = Some df ->
  let r := upstream (mkRequest movement port day month year) in
  fetch validate_str str_exc upstream current_date day month year st movement
  = mkState
      (<[current_date := extend movement (contribution validate_str r) df]>
         (flights_by_date st))
      (api_errors st ++ failure_entries validate_str str_exc current_date movement r).
Proof.
  intros Hdf r. unfold fetch, try_body. fold r.
  unfold failure_entries, failure, contribution, record_error.
  destruct r as [msg|status_code text|msg|data]; simpl;
    rewrite ?extend_nil, ?insert_id by assumption; try reflexivity.
  destruct data as [|b|n|repr|s|data|items]; simpl;
    rewrite ?extend_nil, ?insert_id by assumption; try reflexivity.
  destruct (comprehension validate_str data) as [e|flight_details]; simpl.
  - rewrite extend_nil, insert_id by assumption. reflexivity.
  - rewrite Hdf, app_nil_r. destruct st; reflexivity.
Qed.

(** A turn of the loop over the dates, from any state. *)
Lemma process_date_spec dates st i day month year :
  dates !! i = Some day -> dates !! (i + 1)%nat = Some month ->
  dates !! (i + 2)%nat = Some year ->
  let current_date := date_key day month year in
  let before := default DateFlights_default (flights_by_date st !! current_date) in
  let rd := upstream (mkRequest MovementType.departures port day month year) in
  let ra := upstream (mkRequest MovementType.arrivals port day month year) in
  process_date validate_str str_exc upstream dates st i
  = inr (mkState
           (<[current_date :=
                mkDateFlights (departures before ++ contribution validate_str rd)
                              (arrivals before ++ contribution validate_str ra)]>
              (flights_by_date st))
           (api_errors st
            ++ failure_entries validate_str str_exc current_date
                 MovementType.departures rd
            ++ failure_entries validate_str str_exc current_date
                 MovementType.arrivals ra)).
Proof.
  intros Hd Hm Hy current_date before rd ra. unfold process_date.
  rewrite Hd, Hm, Hy. fold current_date. f_equal. unfold movements. simpl.
  set (st0 := match flights_by_date st !! current_date with
              | Some _ => st
              | None => _
              end).
  assert (flights_by_date st0 !! current_date = Some before
          /\ (forall v, <[current_date := v]> (flights_by_date st0)
                        = <[current_date := v]> (flights_by_date st))
          /\ api_errors st0 = api_errors st) as (Hb & Hi & He).
  { subst st0 before. destruct (flights_by_date st !! current_date) as [df|] eqn:E;
      simpl.
    - auto.
    - rewrite lookup_insert_eq. repeat split; auto.
      intros v. apply insert_insert_eq. }
  rewrite (fetch_spec _ _ _ _ st0 _ before Hb). fold rd.
  erewrite fetch_spec by (simpl; apply lookup_insert_eq). fold ra.
  simpl. rewrite insert_insert_eq, He, <- app_assoc, Hi.
  unfold extend. simpl. reflexivity.
Qed.

(** The accumulators after the loops, for a window of three dates with
    three different keys. *)
Lemma aggregate_window t1 t2 t3 :
  key_of t1 <> key_of t2 -> key_of t1 <> key_of t3 -> key_of t2 <> key_of t3 ->
  aggregate validate_str str_exc upstream
    [ strftime_d t1; strftime_m t1; strftime_Y t1;
      strftime_d t2; strftime_m t2; strftime_Y t2;
      strftime_d t3; strftime_m t3; strftime_Y t3 ]
  = inr (mkState
           (<[key_of t3 := date_entry validate_str upstream t3]>
              (<[key_of t2 := date_entry validate_str upstream t2]>
                 (<[key_of t1 := date_entry validate_str upstream t1]> ∅)))
           (date_errors validate_str str_exc upstream t1
            ++ date_errors validate_str str_exc upstream t2
            ++ date_errors validate_str str_exc upstream t3)).
Proof.
  intros H12 H13 H23. unfold aggregate.
  change (range 0 _ 3) with [0; 3; 6]%nat. cbn [for_each].
  erewrite process_date_spec by reflexivity. cbn [mbind exception_bind].
  erewrite process_date_spec by reflexivity. cbn [mbind exception_bind].
  erewrite process_date_spec by reflexivity.
  cbn [flights_by_date api_errors]. fold (key_of t1) (key_of t2) (key_of t3).
  rewrite !lookup_insert_ne by assumption. rewrite !lookup_empty.
  cbn [default DateFlights_default departures arrivals app].
  unfold date_entry, date_errors, request_for.
  rewrite <- !app_assoc. reflexivity.
Qed.

End AggregatorProperties.

(** ** The handler on a window *)

Section HandlerProperties.

Variable validate_str : json -> option string.
Variable str_exc : exception -> string.
Variable upstream : request -> reply.

Lemma window_valid now : inner_date now -> Forall valid_date (window now).
Proof.
  intros (Hv & Hf & Hl). unfold window.
  rewrite !Forall_cons. auto using valid_prev_day, valid_next_day, Forall_nil_2.
Qed.


Lemma window_keys_distinct now :
  inner_date now ->
  key_of (prev_day now) <> key_of now
  /\ key_of (prev_day now) <> key_of (next_day now)
  /\ key_of now <> key_of (next_day now).
Proof.
  intros Hin. pose proof (window_valid now Hin) as Hv.
  destruct Hin as ((Hy & Hm & Hd) & Hf & Hl). unfold window in Hv.
  apply Forall_cons in Hv as [Hp Hv]. apply Forall_cons in Hv as [H0 Hv].
  apply Forall_cons in Hv as [Hx _].
  repeat split; intros E%key_of_inj; try assumption.
  - exact (prev_day_neq now Hm (proj1 Hd) E).
  - exact (prev_next_neq now Hm Hd E).
  - exact (next_day_neq now (eq_sym E)).
Qed.

Lemma aggregate_get_dates now :
  inner_date now ->
  exists dates,
    get_dates now = inr dates
    /\ aggregate validate_str str_exc upstream dates
       = inr (mkState (window_body validate_str upstream now)
                      (window_errors validate_str str_exc upstream now)).
Proof.
  intros Hin. destruct (window_keys_distinct now Hin) as (H12 & H13 & H23).
  destruct Hin as (Hv & Hf & Hl).
  eexists. split; [apply get_dates_window; assumption|].
  apply aggregate_window; assumption.
Qed.

Lemma window_body_nonempty now : window_body validate_str upstream now <> ∅.
Proof. unfold window_body. apply insert_non_empty. Qed.

(** Whatever the upstream does, the handler returns the dictionary. *)
Lemma handler_returns now :
  inner_date now ->
  get_djerba_flights validate_str str_exc upstream now
  = Return (window_body validate_str upstream now).
Proof.
  intros Hin. destruct (aggregate_get_dates now Hin) as (dates & Hd & Ha).
  unfold get_djerba_flights. rewrite Hd, Ha. unfold respond. simpl.
  rewrite bool_decide_eq_false_2 by apply window_body_nonempty. reflexivity.
Qed.

Lemma window_body_lookup now t :
  inner_date now -> t ∈ window now ->
  window_body validate_str upstream now !! key_of t
  = Some (date_entry validate_str upstream t).
Proof.
  intros Hin Ht. destruct (window_keys_distinct now Hin) as (H12 & H13 & H23).
  unfold window in Ht. unfold window_body.
  apply elem_of_cons in Ht as [->|Ht]; [|apply elem_of_cons in Ht as [->|Ht]];
    [| |apply list_elem_of_singleton in Ht as ->].
  - rewrite !lookup_insert_ne by congruence. apply lookup_insert_eq.
  - rewrite lookup_insert_ne by congruence. apply lookup_insert_eq.
  - apply lookup_insert_eq.
Qed.

Lemma window_body_dom now :
  dom (window_body validate_str upstream now)
  = list_to_set (key_of <$> window now).
Proof.
  unfold window_body, window. rewrite !dom_insert_L, dom_empty_L.
  cbn [fmap list_fmap list_to_set]. apply set_eq. intros k. set_unfold. tauto.
Qed.

Lemma window_body_size now :
  inner_date now -> size (window_body validate_str upstream now) = 3%nat.
Proof.
  intros Hin. destruct (window_keys_distinct now Hin) as (H12 & H13 & H23).
  unfold window_body.
  rewrite !map_size_insert_None, map_size_empty; [reflexivity|..].
  - apply lookup_empty.
  - rewrite lookup_insert_ne by congruence. apply lookup_empty.
  - rewrite !lookup_insert_ne by congruence. apply lookup_empty.
Qed.

Lemma failure_contribution r :
  failure validate_str str_exc r <> None -> contribution validate_str r = [].
Proof.
  unfold failure, contribution. destruct r as [| | |[]]; try reflexivity.
  destruct (comprehension _ _); [reflexivity|congruence].
Qed.

End HandlerProperties.

(** ** The claims *)

Lemma inner_date_2024_03_01 : inner_date (mkdate 2024 3 1).
Proof.
  unfold inner_date, valid_date, MINYEAR, MAXYEAR. simpl.
  repeat split; try lia; discriminate.
Defined.


(** C1, as the code has it: when every one of the six fetches fails with a
    network error, six errors are recorded, each a network error, and the
    handler still returns the dictionary, with an empty entry for each of
    the three dates; it does not raise the [HTTPException]. *)
Theorem C1_all_fetches_fail_returns_200
    (validate_str : json -> option string) (str_exc : exception -> string)
    (upstream : request -> reply) (now : datetime) :
  inner_date now ->
  (forall rq, exists msg, upstream rq = RequestError msg) ->
  exists dates st,
    get_dates now = inr dates
    /\ aggregate validate_str str_exc upstream dates = inr st
    /\ length (api_errors st) = 6%nat
    /\ Forall (fun e => exists msg, error e = "Network error: " +:+ msg) (api_errors st)
    /\ get_djerba_flights validate_str str_exc upstream now
       = Return (flights_by_date st)
    /\ (forall t, t ∈ window now ->
          flights_by_date st !! key_of t = Some DateFlights_default)
    /\ (forall status_code d,
          get_djerba_flights validate_str str_exc upstream now
          <> HTTPException status_code d).
Proof.
  intros Hin Hup.
  destruct (aggregate_get_dates validate_str str_exc upstream now Hin)
    as (dates & Hd & Ha).
  exists dates, (mkState (window_body validate_str upstream now)
                         (window_errors validate_str str_exc upstream now)).
  pose proof (handler_returns validate_str str_exc upstream now Hin) as Hr.
  assert (forall t, date_entry validate_str upstream t = DateFlights_default) as He.
  { intros t. unfold date_entry.
    destruct (Hup (request_for MovementType.departures t)) as [m1 ->].
    destruct (Hup (request_for MovementType.arrivals t)) as [m2 ->]. reflexivity. }
  assert (forall t, exists m1 m2,
             date_errors validate_str str_exc upstream t
             = [mkFetchError (key_of t) "departures" ("Network error: " +:+ m1);
                mkFetchError (key_of t) "arrivals" ("Network error: " +:+ m2)])
    as Herr.
  { intros t. unfold date_errors.
    destruct (Hup (request_for MovementType.departures t)) as [m1 ->].
    destruct (Hup (request_for MovementType.arrivals t)) as [m2 ->].
    exists m1, m2. reflexivity. }
  simpl. repeat split; try assumption.
  - unfold window_errors.
    destruct (Herr (prev_day now)) as (? & ? & ->).
    destruct (Herr now) as (? & ? & ->).
    destruct (Herr (next_day now)) as (? & ? & ->). reflexivity.
  - unfold window_errors.
    destruct (Herr (prev_day now)) as (? & ? & ->).
    destruct (Herr now) as (? & ? & ->).
    destruct (Herr (next_day now)) as (? & ? & ->).
    repeat (apply Forall_cons; split; [simpl; eauto|]). apply Forall_nil_2.
  - intros t Ht. rewrite window_body_lookup by assumption. f_equal. apply He.
  - intros c d. rewrite Hr. discriminate.
Qed.

Lemma C1_witness :
  inner_date (mkdate 2024 3 1)
  /\ (forall rq, exists msg, unreachable_upstream rq = RequestError msg)
  /\ exists dates st,
       get_dates (mkdate 2024 3 1) = inr dates
       /\ aggregate strict_str exception_name unreachable_upstream dates = inr st
       /\ length (api_errors st) = 6%nat
       /\ Forall (fun e => exists msg, error e = "Network error: " +:+ msg)
            (api_errors st)
       /\ get_djerba_flights strict_str exception_name unreachable_upstream
            (mkdate 2024 3 1)
          = Return (flights_by_date st)
       /\ (forall t, t ∈ window (mkdate 2024 3 1) ->
             flights_by_date st !! key_of t = Some DateFlights_default)
       /\ (forall status_code d,
             get_djerba_flights strict_str exception_name unreachable_upstream
               (mkdate 2024 3 1)
             <> HTTPException status_code d).
Proof.
  split; [exact inner_date_2024_03_01|].
  split; [intros rq; exists "timed out"; reflexivity|].
  apply (C1_all_fetches_fail_returns_200 strict_str exception_name
           unreachable_upstream (mkdate 2024 3 1)).
  - exact inner_date_2024_03_01.
  - intros rq. exists "timed out". reflexivity.
Defined.




(** C3: the lines after the loops raise the [HTTPException] with status 500
    and the detail [{message, errors}] exactly when the dictionary is empty
    and at least one error was recorded; in every other case they return the
    dictionary.  The handler ends with these lines on the accumulators the
    loops leave. *)
Theorem C3_failure_iff_empty_and_errors (st : state) :
  (respond st
   = HTTPException 500 (mkDetail "Unable to fetch flights" (api_errors st))
   <-> flights_by_date st = ∅ /\ api_errors st <> [])
  /\ (forall status_code d,
        respond st = HTTPException status_code d ->
        flights_by_date st = ∅ /\ api_errors st <> []
        /\ status_code = 500 /\ errors d = api_errors st)
  /\ (~ (flights_by_date st = ∅ /\ api_errors st <> []) ->
      respond st = Return (flights_by_date st))
  /\ (forall validate_str str_exc upstream now dates,
        get_dates now = inr dates ->
        aggregate validate_str str_exc upstream dates = inr st ->
        get_djerba_flights validate_str str_exc upstream now = respond st).
Proof.
  unfold respond.
  destruct (decide (flights_by_date st = ∅)) as [He|He];
    destruct (decide (api_errors st = [])) as [Hn|Hn];
    rewrite ?(bool_decide_eq_true_2 _ He), ?(bool_decide_eq_false_2 _ He),
      ?(bool_decide_eq_true_2 _ Hn), ?(bool_decide_eq_false_2 _ Hn); simpl.
  all: split; [split; [try discriminate; auto | intros [? ?]; try reflexivity;
                                                 contradiction]|].
  all: split; [intros c d [= <- <-]; auto || (intros c d; discriminate)|].
  all: split; [try reflexivity; intros H; exfalso; apply H; auto|].
  all: intros vs se up now dates Hd Ha; unfold get_djerba_flights, respond;
    rewrite Hd, Ha;
    rewrite ?(bool_decide_eq_true_2 _ He), ?(bool_decide_eq_false_2 _ He),
      ?(bool_decide_eq_true_2 _ Hn), ?(bool_decide_eq_false_2 _ Hn); reflexivity.
Qed.

Lemma C3_witness :
  respond empty_state
  = HTTPException 500 (mkDetail "Unable to fetch flights" (api_errors empty_state))
  /\ respond partial_state = Return (flights_by_date partial_state).
Proof.
  split.
  - apply (proj1 (C3_failure_iff_empty_and_errors empty_state)).
    split; [reflexivity|discriminate].
  - apply (proj1 (proj2 (proj2 (C3_failure_iff_empty_and_errors partial_state)))).
    intros [He _]. exact (insert_non_empty _ _ _ He).
Defined.

(** C4: as soon as the dictionary has a key, the handler returns the
    dictionary and nothing else: the response is the same whatever errors
    were collected, so every one of them is dropped. *)
Theorem C4_errors_dropped (st : state) :
  flights_by_date st <> ∅ ->
  respond st = Return (flights_by_date st)
  /\ (forall errs, respond (mkState (flights_by_date st) errs) = respond st)
  /\ (forall validate_str str_exc upstream now dates,
        get_dates now = inr dates ->
        aggregate validate_str str_exc upstream dates = inr st ->
        get_djerba_flights validate_str str_exc upstream now
        = Return (flights_by_date st)).
Proof.
  intros Hne.
  assert (forall errs, respond (mkState (flights_by_date st) errs)
                       = Return (flights_by_date st)) as H.
  { intros errs. unfold respond. simpl.
    rewrite (bool_decide_eq_false_2 _ Hne). reflexivity. }
  assert (respond st = Return (flights_by_date st)) as Hst.
  { destruct st as [m errs]. apply (H errs). }
  split; [exact Hst|]. split.
  - intros errs. rewrite H, Hst. reflexivity.
  - intros vs se up now dates Hd Ha. unfold get_djerba_flights.
    rewrite Hd, Ha. exact Hst.
Qed.

Lemma C4_witness :
  flights_by_date partial_state <> ∅
  /\ respond partial_state = Return (flights_by_date partial_state)
  /\ (forall errs,
        respond (mkState (flights_by_date partial_state) errs)
        = respond partial_state)
  /\ (forall validate_str str_exc upstream now dates,
        get_dates now = inr dates ->
        aggregate validate_str str_exc upstream dates = inr partial_state ->
        get_djerba_flights validate_str str_exc upstream now
        = Return (flights_by_date partial_state)).
Proof.
  split; [apply insert_non_empty|].
  apply (C4_errors_dropped partial_state). apply insert_non_empty.
Defined.




(** ** [strip] removes the whitespace at both ends and nothing else *)

Lemma lstrip_spec s :
  exists l, s = l +:+ lstrip s /\ all_space l = true
            /\ starts_with_space (lstrip s) = false.
Proof.
  induction s as [|c s (l & E & Hl & Hs)]; simpl.
  - exists "". auto.
  - destruct (isspace c) eqn:Ec.
    + exists (String c l). simpl. rewrite Ec, Hl. repeat split; [|assumption].
      change (String c l +:+ lstrip s) with (String c (l +:+ lstrip s)).
      rewrite <- E. reflexivity.
    + exists "". simpl. auto.
Qed.

Lemma rstrip_spec s :
  exists r, s = rstrip s +:+ r /\ all_space r = true
            /\ ends_with_space (rstrip s) = false.
Proof.
  induction s as [|c s (r & E & Hr & Hs)]; simpl.
  - exists "". auto.
  - destruct (rstrip s) as [|a t] eqn:Er.
    + change ("" +:+ r) with r in E. subst r.
      destruct (isspace c) eqn:Ec.
      * exists (String c s). simpl. rewrite Ec, Hr. auto.
      * exists s. simpl. auto.
    + exists r. repeat split; [|assumption|exact Hs].
      change (String c (String a t) +:+ r) with (String c (String a t +:+ r)).
      rewrite <- E. reflexivity.
Qed.

Lemma rstrip_starts s :
  starts_with_space s = false -> starts_with_space (rstrip s) = false.
Proof.
  destruct s as [|c s]; simpl; [auto|]. intros Hc.
  destruct (rstrip s); [rewrite Hc|]; auto.
Qed.

Lemma strip_spec s :
  exists l r, s = l +:+ strip s +:+ r /\ all_space l = true /\ all_space r = true
              /\ starts_with_space (strip s) = false
              /\ ends_with_space (strip s) = false.
Proof.
  destruct (lstrip_spec s) as (l & El & Hl & Hs).
  destruct (rstrip_spec (lstrip s)) as (r & Er & Hr & He).
  exists l, r. unfold strip. rewrite <- Er.
  repeat split; auto using rstrip_starts.
Qed.

(** ** Records of the upstream *)

Section Records.

Variable validate_str : json -> option string.
Hypothesis validate_str_str : forall s, validate_str (JStr s) = Some s.

Lemma to_flight_record item r :
  is_record item r -> to_flight validate_str item = inr (flight_of r).
Proof.
  intros (H1 & H2 & H3 & H4 & H5). unfold to_flight.
  rewrite H1, H2, H3, H4, H5. simpl.
  unfold FlightDetails_init. rewrite !validate_str_str.
  destruct (commentaire r) as [c|] eqn:Ec; simpl.
  - rewrite validate_str_str. simpl. unfold flight_of. rewrite Ec. reflexivity.
  - unfold flight_of. rewrite Ec. reflexivity.
Qed.

Lemma comprehension_records items recs :
  Forall2 is_record items recs ->
  comprehension validate_str items = inr (flight_of <$> recs).
Proof.
  induction 1 as [|item r items recs Hr _ IH]; simpl; [reflexivity|].
  rewrite (to_flight_record _ _ Hr), IH. reflexivity.
Qed.

End Records.

Lemma mocked_record_is_record :
  is_record mocked_record (mkRecord "TUN" "14:30" "Nouvelair" "BJ101" None).
Proof. repeat split. Qed.

(** C6: when the body is a list of records, every record becomes a
    [FlightDetails] with the record's direction, time, flight number and
    comment (null allowed) and its company with the whitespace at both ends
    removed, and these are appended, in order, to the departures or the
    arrivals of the date of the fetch, the other bucket and the errors left
    as they were; " TunisAir " becomes "TunisAir"; and a mocked response with
    one record for the departures of today leaves exactly that flight in
    today's departures. *)
Theorem C6_records_become_flights
    (validate_str : json -> option string) (str_exc : exception -> string)
    (upstream : request -> reply) :
  (forall s, validate_str (JStr s) = Some s) ->
  (forall item r,
     is_record item r ->
     to_flight validate_str item
     = inr (mkFlightDetails (direction r) (heure r) (strip (compagnie r))
                            (numVol r) (commentaire r)))
  /\ (forall current_date day month year st movement df items recs,
        Forall2 is_record items recs ->
        flights_by_date st !! current_date = Some df ->
        upstream (mkRequest movement port day month year) = Json (JList items) ->
        fetch validate_str str_exc upstream current_date day month year st movement
        = mkState
            (<[current_date :=
                 match movement with
                 | MovementType.departures =>
                   mkDateFlights (departures df ++ (flight_of <$> recs)) (arrivals df)
                 | MovementType.arrivals =>
                   mkDateFlights (departures df) (arrivals df ++ (flight_of <$> recs))
                 end]> (flights_by_date st))
            (api_errors st))
  /\ (forall s, exists l r,
        s = l +:+ strip s +:+ r /\ all_space l = true /\ all_space r = true
        /\ starts_with_space (strip s) = false
        /\ ends_with_space (strip s) = false)
  /\ strip " TunisAir " = "TunisAir"
  /\ (forall now,
        inner_date now ->
        upstream (request_for MovementType.departures now)
        = Json (JList [mocked_record]) ->
        exists body df,
          get_djerba_flights validate_str str_exc upstream now = Return body
          /\ body !! key_of now = Some df
          /\ departures df = [mkFlightDetails "TUN" "14:30" "Nouvelair" "BJ101" None]).
Proof.
  intros Hvs. split; [intros item r Hr; apply to_flight_record; assumption|].
  split.
  { intros current_date day month year st movement df items recs Hrecs Hdf Hup.
    rewrite (fetch_spec validate_str str_exc upstream _ _ _ _ st movement df Hdf).
    cbv zeta. rewrite Hup. unfold failure_entries, failure, contribution.
    rewrite (comprehension_records validate_str Hvs items recs Hrecs).
    rewrite app_nil_r. destruct movement; reflexivity. }
  split; [apply strip_spec|]. split; [reflexivity|].
  intros now Hin Hup.
  exists (window_body validate_str upstream now),
    (date_entry validate_str upstream now).
  split; [apply handler_returns; assumption|]. split.
  - apply window_body_lookup; [assumption|]. unfold window.
    apply elem_of_cons. right. apply elem_of_cons. left. reflexivity.
  - unfold date_entry. simpl. rewrite Hup. unfold contribution.
    rewrite (comprehension_records validate_str Hvs [mocked_record]
               [mkRecord "TUN" "14:30" "Nouvelair" "BJ101" None]).
    + reflexivity.
    + repeat constructor.
Qed.

Lemma C6_witness :
  (forall s, strict_str (JStr s) = Some s)
  /\ exists body df,
       get_djerba_flights strict_str exception_name mocked_upstream (mkdate 2024 3 1)
       = Return body
       /\ body !! key_of (mkdate 2024 3 1) = Some df
       /\ departures df = [mkFlightDetails "TUN" "14:30" "Nouvelair" "BJ101" None].
Proof.
  split; [intros s; reflexivity|].
  apply (C6_records_become_flights strict_str exception_name mocked_upstream
           (fun s => eq_refl) : _ /\ _ /\ _ /\ _ /\ _).
  - exact inner_date_2024_03_01.
  - reflexivity.
Defined.

(** ** Where the entries of the errors come from *)

Section Errors.

Variable validate_str : json -> option string.
Variable str_exc : exception -> string.
Variable upstream : request -> reply.

Lemma non_list_failure data :
  (forall items, data <> JList items) ->
  failure validate_str str_exc (Json data) = Some "Unexpected response format"
  /\ contribution validate_str (Json data) = [].
Proof.
  intros Hdata. destruct data; try (split; reflexivity).
  exfalso. eapply Hdata. reflexivity.
Qed.

Lemma date_errors_elem t m e :
  e ∈ failure_entries validate_str str_exc (key_of t) m (upstream (request_for m t)) ->
  e ∈ date_errors validate_str str_exc upstream t.
Proof.
  intros He. unfold date_errors. apply elem_of_app.
  destruct m; [left|right]; exact He.
Qed.

Lemma window_errors_elem now t e :
  t ∈ window now ->
  e ∈ date_errors validate_str str_exc upstream t ->
  e ∈ window_errors validate_str str_exc upstream now.
Proof.
  unfold window, window_errors. rewrite !elem_of_cons, elem_of_nil, !elem_of_app.
  intros [->|[->|[->|[]]]]; auto.
Qed.

(** A fetch that fails leaves the dictionary alone and appends one entry. *)
Lemma fetch_failure current_date day month year st movement text :
  failure validate_str str_exc (upstream (mkRequest movement port day month year))
  = Some text ->
  fetch validate_str str_exc upstream current_date day month year st movement
  = mkState (flights_by_date st)
            (api_errors st ++ [mkFetchError current_date (movement_label movement) text]).
Proof.
  unfold fetch, try_body, failure, record_error.
  destruct (upstream _) as [msg|status_code body|msg|data]; try (intros [= <-]; reflexivity).
  destruct data as [|b|n|repr|s|data|items]; try (intros [= <-]; reflexivity).
  destruct (comprehension validate_str data) as [e|fs]; [|discriminate].
  intros [= <-]. reflexivity.
Qed.

End Errors.

(** C7, as the claim has it, fails on the text of the message: the entry
    recorded for a body that is an object reads "Unexpected response
    format", with a capital letter. *)
Lemma C7_counterexample_message_text :
  object_upstream (mkRequest MovementType.departures port "01" "03" "2024")
  = Json (JDict [])
  /\ api_errors
       (fetch strict_str exception_name object_upstream "01-03-2024" "01" "03" "2024"
          (mkState (<["01-03-2024" := DateFlights_default]> ∅) [])
          MovementType.departures)
     = [mkFetchError "01-03-2024" "departures" "Unexpected response format"]
  /\ "Unexpected response format" <> "unexpected response format".
Proof. repeat split. discriminate. Qed.

(** C7, amended: for a pair whose body is JSON but not a list, the fetch
    leaves the dictionary as it was and appends one entry with the date,
    the movement and the message "Unexpected response format"; in a run of
    the handler the bucket of that pair stays empty, the entry is among the
    errors, and the handler returns the dictionary: nothing is raised and
    the other pairs are fetched. *)
Theorem C7_body_not_a_list
    (validate_str : json -> option string) (str_exc : exception -> string)
    (upstream : request -> reply) :
  (forall current_date day month year st movement data,
     upstream (mkRequest movement port day month year) = Json data ->
     (forall items, data <> JList items) ->
     fetch validate_str str_exc upstream current_date day month year st movement
     = mkState (flights_by_date st)
         (api_errors st
          ++ [mkFetchError current_date (movement_label movement)
                "Unexpected response format"]))
  /\ (forall now t movement data,
        inner_date now -> t ∈ window now ->
        upstream (request_for movement t) = Json data ->
        (forall items, data <> JList items) ->
        exists dates st,
          get_dates now = inr dates
          /\ aggregate validate_str str_exc upstream dates = inr st
          /\ get_djerba_flights validate_str str_exc upstream now
             = Return (flights_by_date st)
          /\ (exists df, flights_by_date st !! key_of t = Some df
                         /\ bucket movement df = [])
          /\ mkFetchError (key_of t) (movement_label movement)
               "Unexpected response format" ∈ api_errors st
          /\ (forall t', t' ∈ window now ->
                flights_by_date st !! key_of t'
                = Some (date_entry validate_str upstream t'))).
Proof.
  split.
  - intros current_date day month year st movement data Hup Hdata.
    apply fetch_failure. rewrite Hup.
    apply (non_list_failure validate_str str_exc data Hdata).
  - intros now t movement data Hin Ht Hup Hdata.
    destruct (aggregate_get_dates validate_str str_exc upstream now Hin)
      as (dates & Hd & Ha).
    destruct (non_list_failure validate_str str_exc data Hdata) as (Hf & Hc).
    exists dates, (mkState (window_body validate_str upstream now)
                           (window_errors validate_str str_exc upstream now)).
    simpl. repeat split; try assumption.
    + apply handler_returns. assumption.
    + exists (date_entry validate_str upstream t).
      split; [apply window_body_lookup; assumption|].
      unfold date_entry. destruct movement; simpl; rewrite Hup; exact Hc.
    + apply (window_errors_elem _ _ _ now t); [assumption|].
      apply (date_errors_elem _ _ _ t movement).
      rewrite Hup. unfold failure_entries. rewrite Hf.
      apply list_elem_of_singleton. reflexivity.
    + intros t' Ht'. apply window_body_lookup; assumption.
Qed.

Lemma C7_witness :
  inner_date (mkdate 2024 3 1)
  /\ object_upstream (request_for MovementType.departures (mkdate 2024 3 1))
     = Json (JDict [])
  /\ exists dates st,
       get_dates (mkdate 2024 3 1) = inr dates
       /\ aggregate strict_str exception_name object_upstream dates = inr st
       /\ get_djerba_flights strict_str exception_name object_upstream (mkdate 2024 3 1)
          = Return (flights_by_date st)
       /\ (exists df, flights_by_date st !! key_of (mkdate 2024 3 1) = Some df
                      /\ bucket MovementType.departures df = [])
       /\ mkFetchError (key_of (mkdate 2024 3 1))
            (movement_label MovementType.departures)
            "Unexpected response format" ∈ api_errors st.
Proof.
  split; [exact inner_date_2024_03_01|]. split; [reflexivity|].
  destruct (proj2 (C7_body_not_a_list strict_str exception_name object_upstream)
              (mkdate 2024 3 1) (mkdate 2024 3 1) MovementType.departures (JDict [])
              inner_date_2024_03_01)
    as (dates & st & H1 & H2 & H3 & H4 & H5 & _).
  - unfold window. rewrite !elem_of_cons. auto.
  - reflexivity.
  - discriminate.
  - exists dates, st. auto.
Defined.

(** C8: in a run of the handler, the departures of a date are exactly the
    flights of the reply to that date's departures request, and its arrivals
    those of the reply to its arrivals request; the dictionary has no other
    key; and a bucket is the same under any upstream that answers its own
    request in the same way, whatever the answers to the five others. *)
Theorem C8_buckets_from_their_own_fetch
    (validate_str : json -> option string) (str_exc : exception -> string)
    (upstream : request -> reply) (now : datetime) :
  inner_date now ->
  exists body,
    get_djerba_flights validate_str str_exc upstream now = Return body
    /\ (forall t, t ∈ window now ->
          body !! key_of t
          = Some (mkDateFlights
                    (contribution validate_str
                       (upstream (request_for MovementType.departures t)))
                    (contribution validate_str
                       (upstream (request_for MovementType.arrivals t)))))
    /\ (forall k, k ∉ key_of <$> window now -> body !! k = None)
    /\ (forall upstream' t movement,
          t ∈ window now ->
          upstream' (request_for movement t) = upstream (request_for movement t) ->
          exists body' df df',
            get_djerba_flights validate_str str_exc upstream' now = Return body'
            /\ body !! key_of t = Some df
            /\ body' !! key_of t = Some df'
            /\ bucket movement df' = bucket movement df).
Proof.
  intros Hin. exists (window_body validate_str upstream now).
  split; [apply handler_returns; assumption|].
  split; [intros t Ht; apply window_body_lookup; assumption|].
  split.
  - intros k Hk. apply not_elem_of_dom. rewrite window_body_dom.
    rewrite elem_of_list_to_set. exact Hk.
  - intros upstream' t movement Ht Hsame.
    exists (window_body validate_str upstream' now),
      (date_entry validate_str upstream t), (date_entry validate_str upstream' t).
    split; [apply handler_returns; assumption|].
    split; [apply window_body_lookup; assumption|].
    split; [apply window_body_lookup; assumption|].
    unfold date_entry. destruct movement; simpl; rewrite Hsame; reflexivity.
Qed.

Lemma C8_witness :
  inner_date (mkdate 2024 3 1)
  /\ exists body,
       get_djerba_flights strict_str exception_name mocked_upstream (mkdate 2024 3 1)
       = Return body
       /\ (forall t, t ∈ window (mkdate 2024 3 1) ->
             body !! key_of t
             = Some (mkDateFlights
                       (contribution strict_str
                          (mocked_upstream (request_for MovementType.departures t)))
                       (contribution strict_str
                          (mocked_upstream (request_for MovementType.arrivals t)))))
       /\ (forall k, k ∉ key_of <$> window (mkdate 2024 3 1) -> body !! k = None).
Proof.
  split; [exact inner_date_2024_03_01|].
  destruct (C8_buckets_from_their_own_fetch strict_str exception_name
              mocked_upstream (mkdate 2024 3 1) inner_date_2024_03_01)
    as (body & H1 & H2 & H3 & _).
  exists body. auto.
Defined.

(** ** One pair does not touch another *)

Lemma request_for_inj m t m' t' :
  valid_date t -> valid_date t' ->
  request_for m t = request_for m' t' -> m = m' /\ t = t'.
Proof.
  intros Hv Hv' [= Hm Hd Hmo Hy]. split; [assumption|].
  apply key_of_inj; try assumption. unfold key_of. rewrite Hd, Hmo, Hy. reflexivity.
Qed.

Section Isolation.

Variable validate_str : json -> option string.
Variable str_exc : exception -> string.

Lemma window_errors_pairs upstream now :
  window_errors validate_str str_exc upstream now
  = pairs now ≫= pair_errors validate_str str_exc upstream.
Proof.
  unfold window_errors, date_errors, pairs, window, movements, pair_errors. simpl.
  rewrite !app_nil_r, <- !app_assoc. reflexivity.
Qed.

Lemma pair_errors_of_pair upstream t m e :
  e ∈ pair_errors validate_str str_exc upstream (t, m) -> of_pair t m e.
Proof.
  unfold pair_errors, failure_entries. simpl.
  destruct (failure _ _ _); [|intros []%elem_of_nil].
  intros ->%list_elem_of_singleton. split; reflexivity.
Qed.

Lemma pair_errors_length upstream p :
  length (pair_errors validate_str str_exc upstream p)
  = match failure validate_str str_exc (upstream (request_for p.2 p.1)) with
    | Some _ => 1%nat
    | None => 0%nat
    end.
Proof. unfold pair_errors, failure_entries. destruct (failure _ _ _); reflexivity. Qed.

Lemma filter_pair_errors upstream upstream' t0 m0 t m :
  valid_date t0 -> valid_date t ->
  (forall rq, rq <> request_for m0 t0 -> upstream' rq = upstream rq) ->
  filter (fun e => ~ of_pair t0 m0 e)
    (pair_errors validate_str str_exc upstream' (t, m))
  = filter (fun e => ~ of_pair t0 m0 e)
      (pair_errors validate_str str_exc upstream (t, m)).
Proof.
  intros Hv0 Hv Hsame.
  destruct (decide (request_for m t = request_for m0 t0)) as [E|E].
  - apply request_for_inj in E as [-> ->]; try assumption.
    assert (forall up, filter (fun e => ~ of_pair t0 m0 e)
                         (pair_errors validate_str str_exc up (t0, m0)) = [])
      as Hnil.
    { intros up. pose proof (pair_errors_of_pair up t0 m0) as Hof.
      destruct (pair_errors validate_str str_exc up (t0, m0)) as [|e [|e' l]] eqn:El.
      - reflexivity.
      - rewrite filter_cons, decide_False; [reflexivity|].
        intros Hn. apply Hn, Hof. apply list_elem_of_singleton. reflexivity.
      - pose proof (pair_errors_length up (t0, m0)) as Hlen. rewrite El in Hlen.
        simpl in Hlen. destruct (failure _ _ _); discriminate. }
    rewrite !Hnil. reflexivity.
  - unfold pair_errors. simpl. rewrite (Hsame _ E). reflexivity.
Qed.

End Isolation.

(** C9: a fetch that fails, be it by an HTTP error status, by a network
    failure, by any other exception or by a record that cannot be mapped,
    leaves the dictionary as it was and appends exactly one entry for its
    pair, which for an HTTP error holds the status code and the body; in a
    run the errors are, pair by pair in the order of the loops, the entries of
    each pair's own reply, at most one each, and the handler returns the
    dictionary whatever the replies; and changing the reply to one request
    changes neither a bucket nor an error entry of any other pair. *)
Theorem C9_failures_recorded_and_isolated
    (validate_str : json -> option string) (str_exc : exception -> string)
    (upstream : request -> reply) :
  (forall current_date day month year st movement,
     let rq := mkRequest movement port day month year in
     let recorded text :=
       fetch validate_str str_exc upstream current_date day month year st movement
       = mkState (flights_by_date st)
           (api_errors st
            ++ [mkFetchError current_date (movement_label movement) text]) in
     (forall status_code text,
        upstream rq = HTTPStatusError status_code text ->
        recorded ("API error " +:+ pretty status_code +:+ ": " +:+ text))
     /\ (forall msg,
           upstream rq = RequestError msg -> recorded ("Network error: " +:+ msg))
     /\ (forall msg,
           upstream rq = OtherError msg -> recorded ("Unexpected error: " +:+ msg))
     /\ (forall data e,
           upstream rq = Json (JList data) ->
           comprehension validate_str data = inl e ->
           recorded ("Unexpected error: " +:+ str_exc e)))
  /\ (forall now,
        inner_date now ->
        exists dates st,
          get_dates now = inr dates
          /\ aggregate validate_str str_exc upstream dates = inr st
          /\ get_djerba_flights validate_str str_exc upstream now
             = Return (flights_by_date st)
          /\ api_errors st = pairs now ≫= pair_errors validate_str str_exc upstream
          /\ (forall p,
                length (pair_errors validate_str str_exc upstream p)
                = match failure validate_str str_exc
                          (upstream (request_for p.2 p.1)) with
                  | Some _ => 1%nat
                  | None => 0%nat
                  end)
          /\ (forall p e,
                e ∈ pair_errors validate_str str_exc upstream p -> of_pair p.1 p.2 e))
  /\ (forall now upstream' t0 m0,
        inner_date now -> t0 ∈ window now ->
        (forall rq, rq <> request_for m0 t0 -> upstream' rq = upstream rq) ->
        exists dates st st',
          get_dates now = inr dates
          /\ aggregate validate_str str_exc upstream dates = inr st
          /\ aggregate validate_str str_exc upstream' dates = inr st'
          /\ (forall t m,
                t ∈ window now -> (t, m) <> (t0, m0) ->
                bucket m <$> (flights_by_date st' !! key_of t)
                = bucket m <$> (flights_by_date st !! key_of t))
          /\ filter (fun e => ~ of_pair t0 m0 e) (api_errors st')
             = filter (fun e => ~ of_pair t0 m0 e) (api_errors st)).
Proof.
  split; [|split].
  - intros current_date day month year st movement rq recorded. subst recorded.
    repeat split.
    + intros status_code text Hup. apply fetch_failure. subst rq. rewrite Hup.
      reflexivity.
    + intros msg Hup. apply fetch_failure. subst rq. rewrite Hup. reflexivity.
    + intros msg Hup. apply fetch_failure. subst rq. rewrite Hup. reflexivity.
    + intros data e Hup He. apply fetch_failure. subst rq. rewrite Hup.
      simpl. rewrite He. reflexivity.
  - intros now Hin.
    destruct (aggregate_get_dates validate_str str_exc upstream now Hin)
      as (dates & Hd & Ha).
    exists dates, (mkState (window_body validate_str upstream now)
                           (window_errors validate_str str_exc upstream now)).
    simpl. repeat split; try assumption.
    + apply handler_returns. assumption.
    + apply window_errors_pairs.
    + intros p. apply pair_errors_length.
    + destruct p as [t m]. apply pair_errors_of_pair in H. apply H.
    + destruct p as [t m]. apply pair_errors_of_pair in H. apply H.
  - intros now upstream' t0 m0 Hin Ht0 Hsame.
    pose proof (window_valid now Hin) as Hv. rewrite Forall_forall in Hv.
    destruct (aggregate_get_dates validate_str str_exc upstream now Hin)
      as (dates & Hd & Ha).
    destruct (aggregate_get_dates validate_str str_exc upstream' now Hin)
      as (dates' & Hd' & Ha').
    rewrite Hd in Hd'. injection Hd' as <-.
    exists dates, (mkState (window_body validate_str upstream now)
                           (window_errors validate_str str_exc upstream now)),
      (mkState (window_body validate_str upstream' now)
               (window_errors validate_str str_exc upstream' now)).
    simpl. repeat split; try assumption.
    + intros t m Ht Hne. rewrite !window_body_lookup by assumption. simpl.
      f_equal. unfold date_entry.
      assert (request_for m t <> request_for m0 t0) as Hrq.
      { intros E. apply request_for_inj in E as [-> ->]; auto. }
      destruct m; simpl; rewrite (Hsame _ Hrq); reflexivity.
    + rewrite !window_errors_pairs. unfold pairs, window, movements. simpl.
      rewrite !app_nil_r, !filter_app.
      assert (valid_date (prev_day now) /\ valid_date now /\ valid_date (next_day now))
        as (Hp & H0 & Hx).
      { unfold window in Hv. repeat split; apply Hv;
          rewrite !elem_of_cons; auto. }
      pose proof (Hv t0 Ht0) as Hv0.
      repeat (f_equal; try (apply filter_pair_errors; assumption)).
Qed.

Lemma C9_witness :
  inner_date (mkdate 2024 3 1)
  /\ (forall rq,
        rq <> request_for MovementType.arrivals (mkdate 2024 3 1) ->
        timing_out_upstream rq = mocked_upstream rq)
  /\ exists dates st st',
       get_dates (mkdate 2024 3 1) = inr dates
       /\ aggregate strict_str exception_name mocked_upstream dates = inr st
       /\ aggregate strict_str exception_name timing_out_upstream dates = inr st'
       /\ (forall t m,
             t ∈ window (mkdate 2024 3 1) ->
             (t, m) <> (mkdate 2024 3 1, MovementType.arrivals) ->
             bucket m <$> (flights_by_date st' !! key_of t)
             = bucket m <$> (flights_by_date st !! key_of t))
       /\ filter (fun e => ~ of_pair (mkdate 2024 3 1) MovementType.arrivals e)
            (api_errors st')
          = filter (fun e => ~ of_pair (mkdate 2024 3 1) MovementType.arrivals e)
              (api_errors st).
Proof.
  assert (forall rq,
            rq <> request_for MovementType.arrivals (mkdate 2024 3 1) ->
            timing_out_upstream rq = mocked_upstream rq) as Hsame.
  { intros rq Hrq. unfold timing_out_upstream.
    destruct (decide _); [contradiction|reflexivity]. }
  split; [exact inner_date_2024_03_01|]. split; [exact Hsame|].
  apply (proj2 (proj2 (C9_failures_recorded_and_isolated strict_str exception_name
                         mocked_upstream))
           (mkdate 2024 3 1) timing_out_upstream (mkdate 2024 3 1)
           MovementType.arrivals inner_date_2024_03_01).
  - unfold window. rewrite !elem_of_cons. auto.
  - exact Hsame.
Defined.

(** ** A record that cannot be mapped *)

Section Atomic.

Variable validate_str : json -> option string.

Lemma comprehension_fails data item e0 :
  item ∈ data -> to_flight validate_str item = inl e0 ->
  exists e, comprehension validate_str data = inl e.
Proof.
  induction data as [|x data IH]; [intros []%elem_of_nil|].
  intros [->|Hin]%elem_of_cons He; simpl.
  - rewrite He. simpl. eauto.
  - destruct (to_flight validate_str x) as [e|f]; simpl; [eauto|].
    destruct (IH Hin He) as [e ->]. simpl. eauto.
Qed.

Lemma to_flight_missing_key items key :
  key ∈ record_keys -> dict_get items key = None ->
  exists e, to_flight validate_str (JDict items) = inl e.
Proof.
  unfold record_keys. rewrite !elem_of_cons, elem_of_nil.
  intros Hkey Hnone. unfold to_flight, getitem.
  destruct (dict_get items "direction") as [v1|] eqn:E1; simpl; [|eauto].
  destruct (dict_get items "heure") as [v2|] eqn:E2; simpl; [|eauto].
  destruct (dict_get items "compagnie") as [v3|] eqn:E3; simpl; [|eauto].
  destruct (strip_method v3) as [e|s] eqn:Es; simpl; [eauto|].
  destruct (dict_get items "numVol") as [v4|] eqn:E4; simpl; [|eauto].
  destruct (dict_get items "commentaire") as [v5|] eqn:E5; simpl; [|eauto].
  destruct Hkey as [->|[->|[->|[->|[->|[]]]]]]; congruence.
Qed.

Lemma to_flight_company_not_str items v :
  dict_get items "compagnie" = Some v -> (forall s, v <> JStr s) ->
  exists e, to_flight validate_str (JDict items) = inl e.
Proof.
  intros Hv Hns. unfold to_flight, getitem. rewrite Hv.
  destruct (dict_get items "direction") as [v1|]; simpl; [|eauto].
  destruct (dict_get items "heure") as [v2|]; simpl; [|eauto].
  destruct v; simpl; eauto. exfalso. eapply Hns. reflexivity.
Qed.

Lemma to_flight_not_dict item :
  (forall items, item <> JDict items) ->
  to_flight validate_str item = inl (TypeError item).
Proof.
  intros Hnd. destruct item; try reflexivity. exfalso. eapply Hnd. reflexivity.
Qed.

End Atomic.

(** C10: a list response is mapped as a whole or not at all.  If the
    mapping of one of its records fails, the fetch leaves the dictionary as
    it was, so the bucket holds what it held before and no flight of the
    response, and it appends a single entry whose text starts with
    "Unexpected error"; a record without one of the five fields, a record
    whose [compagnie] is not a string, and an element that is not an object
    are such records. *)
Theorem C10_list_response_is_atomic
    (validate_str : json -> option string) (str_exc : exception -> string)
    (upstream : request -> reply) :
  (forall current_date day month year st movement data item e0,
     upstream (mkRequest movement port day month year) = Json (JList data) ->
     item ∈ data -> to_flight validate_str item = inl e0 ->
     exists e,
       comprehension validate_str data = inl e
       /\ fetch validate_str str_exc upstream current_date day month year st movement
          = mkState (flights_by_date st)
              (api_errors st
               ++ [mkFetchError current_date (movement_label movement)
                     ("Unexpected error: " +:+ str_exc e)]))
  /\ (forall items key,
        key ∈ record_keys -> dict_get items key = None ->
        exists e, to_flight validate_str (JDict items) = inl e)
  /\ (forall items v,
        dict_get items "compagnie" = Some v -> (forall s, v <> JStr s) ->
        exists e, to_flight validate_str (JDict items) = inl e)
  /\ (forall item,
        (forall items, item <> JDict items) ->
        to_flight validate_str item = inl (TypeError item)).
Proof.
  split; [|split; [|split]].
  - intros current_date day month year st movement data item e0 Hup Hin He.
    destruct (comprehension_fails validate_str data item e0 Hin He) as [e Hc].
    exists e. split; [exact Hc|]. apply fetch_failure. rewrite Hup. simpl.
    rewrite Hc. reflexivity.
  - apply to_flight_missing_key.
  - apply to_flight_company_not_str.
  - apply to_flight_not_dict.
Qed.

Lemma C10_witness :
  exists e,
    comprehension strict_str [mocked_record; JDict [("direction", JStr "TUN")]]
    = inl e
    /\ fetch strict_str exception_name broken_upstream "01-03-2024" "01" "03" "2024"
         partial_state MovementType.departures
       = mkState (flights_by_date partial_state)
           (api_errors partial_state
            ++ [mkFetchError "01-03-2024" (movement_label MovementType.departures)
                  ("Unexpected error: " +:+ exception_name e)]).
Proof.
  apply (proj1 (C10_list_response_is_atomic strict_str exception_name broken_upstream)
           "01-03-2024" "01" "03" "2024" partial_state MovementType.departures
           [mocked_record; JDict [("direction", JStr "TUN")]]
           (JDict [("direction", JStr "TUN")]) (KeyError "heure")).
  - reflexivity.
  - rewrite !elem_of_cons. auto.
  - reflexivity.
Defined.

(** * More of the module *)

(** ** The window at the ends of the calendar and from one day to the next *)

Lemma ymd2ord_inj d1 d2 :
  valid_date d1 -> valid_date d2 -> ymd2ord d1 = ymd2ord d2 -> d1 = d2.
Proof.
  unfold valid_date, MINYEAR. intros (Hy1 & Hm1 & Hd1) (Hy2 & Hm2 & Hd2) E.
  rewrite <- (ord2ymd_ymd2ord d1), <- (ord2ymd_ymd2ord d2), E by lia.
  reflexivity.
Qed.

Lemma prev_next_day d : valid_date d -> d <> LAST -> prev_day (next_day d) = d.
Proof.
  intros Hv Hl. pose proof (valid_next_day d Hv Hl) as Hn.
  pose proof Hv as (Hy & Hm & Hd). pose proof Hn as (Hy' & Hm' & Hd').
  pose proof (ymd2ord_next_day d Hm Hd) as En.
  pose proof (ymd2ord_bounds d Hv) as Hb.
  assert (next_day d <> FIRST) as Hf.
  { intros E. rewrite E in En. change (ymd2ord FIRST) with 1 in En. lia. }
  apply ymd2ord_inj; [apply valid_prev_day; assumption|assumption|].
  rewrite ymd2ord_prev_day by assumption. lia.
Qed.

Lemma get_dates_end now :
  now = FIRST \/ now = LAST -> get_dates now = inl OverflowError.
Proof. intros [->| ->]; reflexivity. Qed.

Lemma datetime_eq_or_not (a b : datetime) : a = b \/ a <> b.
Proof.
  destruct a as [y1 m1 d1], b as [y2 m2 d2].
  destruct (Z.eq_dec y1 y2), (Z.eq_dec m1 m2), (Z.eq_dec d1 d2); subst; auto;
    right; congruence.
Qed.

Lemma inner_or_end now :
  valid_date now -> inner_date now \/ now = FIRST \/ now = LAST.
Proof.
  intros Hv. unfold inner_date.
  destruct (datetime_eq_or_not now FIRST), (datetime_eq_or_not now LAST); auto.
Qed.

(** X1: on a valid date [get_dates] raises exactly when the date is the
    first or the last one of the calendar, only ever [OverflowError], and
    otherwise gives nine strings. *)
Theorem get_dates_raises_at_the_ends (now : datetime) :
  valid_date now ->
  (get_dates now = inl OverflowError <-> now = FIRST \/ now = LAST)
  /\ (forall e, get_dates now = inl e -> e = OverflowError)
  /\ (forall dates, get_dates now = inr dates -> length dates = 9%nat).
Proof.
  intros Hv. destruct (inner_or_end now Hv) as [(_ & Hf & Hl)|He].
  - rewrite (get_dates_window now Hv Hf Hl). repeat split.
    + discriminate.
    + intros [?|?]; contradiction.
    + discriminate.
    + intros dates [= <-]. reflexivity.
  - rewrite (get_dates_end now He). repeat split; auto.
    + intros e [= <-]. reflexivity.
    + discriminate.
Qed.

Lemma get_dates_raises_at_the_ends_witness :
  valid_date LAST
  /\ (get_dates LAST = inl OverflowError <-> LAST = FIRST \/ LAST = LAST).
Proof.
  assert (valid_date LAST) as Hv.
  { unfold valid_date, MINYEAR, MAXYEAR, days_in_month. simpl. lia. }
  split; [exact Hv|]. apply (get_dates_raises_at_the_ends LAST Hv).
Defined.

(** X2: the windows of two days in a row overlap: when [get_dates] returns
    on a day and on the day after, the strings of today and tomorrow of the
    first are those of yesterday and today of the second. *)
Theorem get_dates_next_day_overlaps (now : datetime) (dates dates' : list string) :
  valid_date now ->
  get_dates now = inr dates ->
  get_dates (next_day now) = inr dates' ->
  drop 3 dates = take 6 dates'.
Proof.
  intros Hv Hd Hd'.
  destruct (inner_or_end now Hv) as [(_ & Hf & Hl)|He];
    [|rewrite (get_dates_end now He) in Hd; discriminate].
  pose proof (valid_next_day now Hv Hl) as Hvn.
  destruct (inner_or_end _ Hvn) as [(_ & Hf' & Hl')|He'];
    [|rewrite (get_dates_end _ He') in Hd'; discriminate].
  rewrite (get_dates_window now Hv Hf Hl) in Hd.
  rewrite (get_dates_window _ Hvn Hf' Hl') in Hd'.
  injection Hd as <-. injection Hd' as <-.
  rewrite (prev_next_day now Hv Hl). reflexivity.
Qed.

Lemma get_dates_next_day_overlaps_witness :
  valid_date (mkdate 2024 2 28)
  /\ get_dates (mkdate 2024 2 28)
     = inr ["27"; "02"; "2024"; "28"; "02"; "2024"; "29"; "02"; "2024"]
  /\ get_dates (next_day (mkdate 2024 2 28))
     = inr ["28"; "02"; "2024"; "29"; "02"; "2024"; "01"; "03"; "2024"]
  /\ drop 3 ["27"; "02"; "2024"; "28"; "02"; "2024"; "29"; "02"; "2024"]
     = take 6 ["28"; "02"; "2024"; "29"; "02"; "2024"; "01"; "03"; "2024"].
Proof.
  assert (valid_date (mkdate 2024 2 28)) as Hv.
  { unfold valid_date, MINYEAR, MAXYEAR, days_in_month. simpl. lia. }
  split; [exact Hv|]. split; [reflexivity|]. split; [reflexivity|].
  apply (get_dates_next_day_overlaps (mkdate 2024 2 28) _ _ Hv); reflexivity.
Defined.

(** ** How a call of the handler can end *)

(** X3: on a valid date and for every upstream, validator and exception
    text, a call of the handler ends in one of two ways: on the first or the
    last day of the calendar the [OverflowError] of [get_dates] leaves the
    handler, before any request is sent; on every other day the handler
    returns a dictionary of three keys.  It never raises its [HTTPException],
    and no index is ever out of range. *)
Theorem handler_returns_or_overflows
    (validate_str : json -> option string) (str_exc : exception -> string)
    (upstream : request -> reply) (now : datetime) :
  valid_date now ->
  ((now = FIRST \/ now = LAST)
   /\ get_djerba_flights validate_str str_exc upstream now = Uncaught OverflowError
   \/ inner_date now
      /\ exists body,
           get_djerba_flights validate_str str_exc upstream now = Return body
           /\ size body = 3%nat)
  /\ (forall status_code d,
        get_djerba_flights validate_str str_exc upstream now
        <> HTTPException status_code d)
  /\ get_djerba_flights validate_str str_exc upstream now <> Uncaught IndexError.
Proof.
  intros Hv. destruct (inner_or_end now Hv) as [Hin|He].
  - rewrite (handler_returns validate_str str_exc upstream now Hin).
    split; [|split; [intros ? ?|]; discriminate].
    right. split; [assumption|]. eexists. split; [reflexivity|].
    apply window_body_size. assumption.
  - unfold get_djerba_flights. rewrite (get_dates_end now He).
    split; [|split; [intros ? ?|]; discriminate]. left. auto.
Qed.

Lemma handler_returns_or_overflows_witness :
  valid_date (mkdate 2024 3 1)
  /\ (forall status_code d,
        get_djerba_flights strict_str exception_name unreachable_upstream
          (mkdate 2024 3 1)
        <> HTTPException status_code d).
Proof.
  split; [exact (proj1 inner_date_2024_03_01)|].
  apply (handler_returns_or_overflows strict_str exception_name unreachable_upstream
           (mkdate 2024 3 1) (proj1 inner_date_2024_03_01)).
Defined.

(** ** The loop over a list of any length *)

Section Indices.

Variable validate_str : json -> option string.
Variable str_exc : exception -> string.
Variable upstream : request -> reply.

Lemma process_date_in_range dates st i :
  (i + 2 < length dates)%nat ->
  exists st', process_date validate_str str_exc upstream dates st i = inr st'.
Proof.
  intros Hi. unfold process_date.
  destruct (lookup_lt_is_Some_2 dates i ltac:(lia)) as [d ->].
  destruct (lookup_lt_is_Some_2 dates (i + 1) ltac:(lia)) as [m ->].
  destruct (lookup_lt_is_Some_2 dates (i + 2) ltac:(lia)) as [y ->].
  eauto.
Qed.

Lemma process_date_out_of_range dates st i :
  (length dates <= i + 2)%nat ->
  process_date validate_str str_exc upstream dates st i = inl IndexError.
Proof.
  intros Hi. unfold process_date.
  rewrite (lookup_ge_None_2 dates (i + 2) Hi).
  destruct (dates !! i), (dates !! (i + 1)%nat); reflexivity.
Qed.

Lemma for_each_in_range dates indices st :
  Forall (fun i => (i + 2 < length dates)%nat) indices ->
  exists st', for_each validate_str str_exc upstream dates indices st = inr st'.
Proof.
  intros Hall. revert st. induction Hall as [|i indices Hi _ IH]; intros st; simpl.
  - eauto.
  - destruct (process_date_in_range dates st i Hi) as [st' ->]. simpl. apply IH.
Qed.

Lemma for_each_raises dates indices st e :
  for_each validate_str str_exc upstream dates indices st = inl e ->
  e = IndexError /\ Exists (fun i => (length dates <= i + 2)%nat) indices.
Proof.
  revert st. induction indices as [|i indices IH]; intros st; simpl; [discriminate|].
  destruct (Nat.lt_ge_cases (i + 2) (length dates)) as [Hi|Hi].
  - destruct (process_date_in_range dates st i Hi) as [st' ->]. simpl.
    intros H. destruct (IH _ H) as [-> Hex]. split; [reflexivity|].
    apply Exists_cons_tl. exact Hex.
  - rewrite (process_date_out_of_range dates st i Hi). simpl.
    intros [= <-]. split; [reflexivity|]. apply Exists_cons_hd. exact Hi.
Qed.

Lemma elem_of_range3 n i :
  i ∈ range 0 n 3 <-> exists k, i = (3 * k)%nat /\ (k < (n + 2) / 3)%nat.
Proof.
  unfold range. rewrite list_elem_of_fmap. split.
  - intros (k & -> & Hk). apply elem_of_seq in Hk. exists k.
    split; [lia|]. replace (n - 0 + (3 - 1))%nat with (n + 2)%nat in Hk by lia. lia.
  - intros (k & -> & Hk). exists k. split; [lia|]. apply elem_of_seq.
    replace (n - 0 + (3 - 1))%nat with (n + 2)%nat by lia. lia.
Qed.

End Indices.

(** X4: the loops take the strings of [dates] three by three.  On a list
    whose length is a multiple of three every index is in range and the
    loops end with accumulators; on any other list the last turn reads past
    the end and an [IndexError] leaves the handler, and it is the only
    exception that ever leaves the loops. *)
Theorem aggregate_raises_iff_length_not_multiple_of_3
    (validate_str : json -> option string) (str_exc : exception -> string)
    (upstream : request -> reply) (dates : list string) :
  (aggregate validate_str str_exc upstream dates = inl IndexError
   <-> (length dates mod 3 <> 0)%nat)
  /\ ((exists st, aggregate validate_str str_exc upstream dates = inr st)
      <-> (length dates mod 3 = 0)%nat)
  /\ (forall e, aggregate validate_str str_exc upstream dates = inl e -> e = IndexError).
Proof.
  unfold aggregate. set (n := length dates).
  set (st0 := mkState ∅ []).
  destruct (Nat.eq_dec (n mod 3)%nat 0%nat) as [Hn|Hn].
  - assert (Forall (fun i => (i + 2 < n)%nat) (range 0 n 3)) as Hall.
    { apply Forall_forall. intros i (k & -> & Hk)%elem_of_range3.
      pose proof (Nat.div_mod_eq n 3). pose proof (Nat.div_mod_eq (n + 2) 3).
      pose proof (Nat.mod_upper_bound (n + 2) 3). lia. }
    destruct (for_each_in_range validate_str str_exc upstream dates _ st0 Hall)
      as [st' Hst]. fold n in Hst. rewrite Hst.
    repeat split; try discriminate; try (intros; lia); eauto.
  - destruct (for_each validate_str str_exc upstream dates (range 0 n 3) st0)
      as [e|st'] eqn:Hfe.
    + destruct (for_each_raises _ _ _ _ _ _ _ Hfe) as [-> _].
      repeat split; auto; try (intros; lia).
      * intros [st [=]].
      * intros e [= <-]. reflexivity.
    + exfalso.
      assert (Exists (fun i => (n <= i + 2)%nat) (range 0 n 3)) as Hex.
      { apply Exists_exists. exists (3 * (n / 3))%nat.
        pose proof (Nat.div_mod_eq n 3). pose proof (Nat.div_mod_eq (n + 2) 3).
        pose proof (Nat.mod_upper_bound n 3). pose proof (Nat.mod_upper_bound (n + 2) 3).
        split; [|lia]. apply elem_of_range3. exists (n / 3)%nat. split; [reflexivity|lia]. }
      clear Hn. revert Hfe. generalize st0. 
      induction Hex as [i l Hi|i l _ IH]; intros st; simpl.
      * rewrite (process_date_out_of_range _ _ _ dates st i Hi). discriminate.
      * destruct (process_date _ _ _ dates st i); simpl; [discriminate|apply IH].
Qed.

(** ** Nothing accumulated is lost *)

Lemma grows_refl st : grows st st.
Proof. split; [reflexivity|]. intros k df H. exists df. auto. Qed.

Lemma grows_trans st1 st2 st3 : grows st1 st2 -> grows st2 st3 -> grows st1 st3.
Proof.
  intros [He1 Hf1] [He2 Hf2]. split; [etrans; eassumption|].
  intros k df H. destruct (Hf1 k df H) as (df2 & H2 & Hd2 & Ha2).
  destruct (Hf2 k df2 H2) as (df3 & H3 & Hd3 & Ha3).
  exists df3. repeat split; [assumption|etrans; eassumption..].
Qed.

Lemma grows_record_error st current_date movement text :
  grows st (record_error st current_date movement text).
Proof.
  split; simpl; [apply prefix_app_r; reflexivity|].
  intros k df H. exists df. auto.
Qed.

Section Growth.

Variable validate_str : json -> option string.
Variable str_exc : exception -> string.
Variable upstream : request -> reply.

Lemma grows_fetch current_date day month year st movement :
  grows st (fetch validate_str str_exc upstream current_date day month year st movement).
Proof.
  unfold fetch, try_body.
  destruct (upstream _) as [msg|status_code text|msg|data];
    try apply grows_record_error.
  destruct data as [|b|n|repr|s|data|items]; try apply grows_record_error.
  destruct (comprehension validate_str data) as [e|flight_details];
    [apply grows_record_error|].
  destruct (flights_by_date st !! current_date) as [df0|] eqn:E;
    [|apply grows_record_error].
  split; simpl; [reflexivity|]. intros k df H.
  destruct (decide (current_date = k)) as [->|Hk].
  - rewrite lookup_insert_eq. rewrite E in H. injection H as ->.
    eexists. split; [reflexivity|]. unfold extend.
    destruct (decide _); simpl; split;
      first [reflexivity | apply prefix_app_r; reflexivity].
  - rewrite lookup_insert_ne by assumption. exists df. auto.
Qed.

Lemma grows_process_date dates st i st' :
  process_date validate_str str_exc upstream dates st i = inr st' -> grows st st'.
Proof.
  unfold process_date.
  destruct (dates !! i) as [day|]; [|discriminate].
  destruct (dates !! (i + 1)%nat) as [month|]; [|discriminate].
  destruct (dates !! (i + 2)%nat) as [year|]; [|discriminate].
  intros [= <-]. unfold movements. simpl.
  eapply grows_trans; [|eapply grows_trans; [apply grows_fetch|apply grows_fetch]].
  destruct (flights_by_date st !! date_key day month year) as [df0|] eqn:E;
    [apply grows_refl|].
  split; simpl; [reflexivity|]. intros k df H.
  rewrite lookup_insert_ne by congruence. exists df. auto.
Qed.

Lemma grows_for_each dates indices st st' :
  for_each validate_str str_exc upstream dates indices st = inr st' -> grows st st'.
Proof.
  revert st. induction indices as [|i indices IH]; intros st; simpl.
  - intros [= <-]. apply grows_refl.
  - destruct (process_date validate_str str_exc upstream dates st i) as [e|st1] eqn:E;
      simpl; [discriminate|].
    intros H. eapply grows_trans; [eapply grows_process_date; eassumption|].
    apply IH. assumption.
Qed.

End Growth.

(** X5: the accumulators only grow.  A fetch, a turn of the loop over the
    dates and the loops as a whole keep every recorded error and every
    flight where it is and in its order: the errors before are a prefix of
    the errors after, every key stays, and under each key the departures and
    the arrivals before are prefixes of those after; this holds from any
    accumulators and for any list of dates, one with a date repeated too,
    whose entry is then extended and not replaced. *)
Theorem accumulators_only_grow
    (validate_str : json -> option string) (str_exc : exception -> string)
    (upstream : request -> reply) :
  (forall current_date day month year st movement,
     grows st
       (fetch validate_str str_exc upstream current_date day month year st movement))
  /\ (forall dates st i st',
        process_date validate_str str_exc upstream dates st i = inr st' ->
        grows st st')
  /\ (forall dates indices st st',
        for_each validate_str str_exc upstream dates indices st = inr st' ->
        grows st st').
Proof.
  split; [|split].
  - apply grows_fetch.
  - apply grows_process_date.
  - apply grows_for_each.
Qed.

Lemma accumulators_only_grow_witness :
  for_each strict_str exception_name half_upstream
    ["01"; "03"; "2024"; "01"; "03"; "2024"] [0; 3]%nat partial_state
  = inr (mkState
           (<["01-03-2024" :=
                mkDateFlights
                  [mkFlightDetails "TUN" "14:30" "Nouvelair" "BJ101" None;
                   mkFlightDetails "TUN" "14:30" "Nouvelair" "BJ101" None] []]> ∅)
           [mkFetchError "01-03-2024" "arrivals" "Network error: timed out";
            mkFetchError "01-03-2024" "arrivals" "API error 503: Service Unavailable";
            mkFetchError "01-03-2024" "arrivals" "API error 503: Service Unavailable"])
  /\ grows partial_state
       (mkState
          (<["01-03-2024" :=
               mkDateFlights
                 [mkFlightDetails "TUN" "14:30" "Nouvelair" "BJ101" None;
                  mkFlightDetails "TUN" "14:30" "Nouvelair" "BJ101" None] []]> ∅)
          [mkFetchError "01-03-2024" "arrivals" "Network error: timed out";
           mkFetchError "01-03-2024" "arrivals" "API error 503: Service Unavailable";
           mkFetchError "01-03-2024" "arrivals" "API error 503: Service Unavailable"]).
Proof.
  assert (for_each strict_str exception_name half_upstream
            ["01"; "03"; "2024"; "01"; "03"; "2024"] [0; 3]%nat partial_state
          = inr (mkState
                   (<["01-03-2024" :=
                        mkDateFlights
                          [mkFlightDetails "TUN" "14:30" "Nouvelair" "BJ101" None;
                           mkFlightDetails "TUN" "14:30" "Nouvelair" "BJ101" None] []]> ∅)
                   [mkFetchError "01-03-2024" "arrivals" "Network error: timed out";
                    mkFetchError "01-03-2024" "arrivals"
                      "API error 503: Service Unavailable";
                    mkFetchError "01-03-2024" "arrivals"
                      "API error 503: Service Unavailable"])) as H.
  { vm_compute. reflexivity. }
  split; [exact H|].
  exact (proj2 (proj2 (accumulators_only_grow strict_str exception_name half_upstream))
           _ _ _ _ H).
Defined.

(** ** The errors of a run and the dictionary *)

Lemma movement_label_cases m :
  movement_label m = "departures" \/ movement_label m = "arrivals".
Proof. destruct m; [left|right]; reflexivity. Qed.

Lemma movement_label_inj m m' : movement_label m = movement_label m' -> m = m'.
Proof. destruct m, m'; try reflexivity; discriminate. Qed.

Lemma elem_of_pairs now p : p ∈ pairs now -> p.1 ∈ window now.
Proof.
  unfold pairs. rewrite list_elem_of_bind. intros (t & Hp & Ht).
  apply list_elem_of_fmap in Hp as (m & -> & _). exact Ht.
Qed.

Section RunErrors.

Variable validate_str : json -> option string.
Variable str_exc : exception -> string.
Variable upstream : request -> reply.

Lemma window_errors_origin now e :
  e ∈ window_errors validate_str str_exc upstream now ->
  exists t m, t ∈ window now
              /\ e ∈ pair_errors validate_str str_exc upstream (t, m).
Proof.
  rewrite window_errors_pairs, list_elem_of_bind. intros ([t m] & He & Hp).
  exists t, m. split; [exact (elem_of_pairs now _ Hp)|exact He].
Qed.

Lemma pair_errors_failure t m e :
  e ∈ pair_errors validate_str str_exc upstream (t, m) ->
  failure validate_str str_exc (upstream (request_for m t)) <> None.
Proof.
  unfold pair_errors, failure_entries. simpl.
  destruct (failure _ _ _); [discriminate|intros []%elem_of_nil].
Qed.

Lemma window_errors_length now :
  (length (window_errors validate_str str_exc upstream now) <= 6)%nat.
Proof.
  unfold window_errors, date_errors, failure_entries. rewrite !length_app.
  repeat match goal with
         | |- context [failure ?v ?s ?r] => destruct (failure v s r)
         end; simpl; lia.
Qed.

End RunErrors.

(** X6: in a run of the handler at most six errors are recorded, and each
    one names a date that is a key of the dictionary returned and a movement
    that is "departures" or "arrivals". *)
Theorem errors_name_keys_of_the_body
    (validate_str : json -> option string) (str_exc : exception -> string)
    (upstream : request -> reply) (now : datetime) :
  inner_date now ->
  exists dates st,
    get_dates now = inr dates
    /\ aggregate validate_str str_exc upstream dates = inr st
    /\ get_djerba_flights validate_str str_exc upstream now
       = Return (flights_by_date st)
    /\ (length (api_errors st) <= 6)%nat
    /\ Forall (fun e => date e ∈ dom (flights_by_date st)
                        /\ (movement e = "departures" \/ movement e = "arrivals"))
         (api_errors st).
Proof.
  intros Hin.
  destruct (aggregate_get_dates validate_str str_exc upstream now Hin)
    as (dates & Hd & Ha).
  exists dates, (mkState (window_body validate_str upstream now)
                         (window_errors validate_str str_exc upstream now)).
  simpl. split; [assumption|]. split; [assumption|].
  split; [apply handler_returns; assumption|].
  split; [apply window_errors_length|].
  apply Forall_forall. intros e He.
  destruct (window_errors_origin _ _ _ now e He) as (t & m & Ht & Hp).
  destruct (pair_errors_of_pair _ _ _ t m e Hp) as [E1 E2].
  rewrite E1, E2. split; [|apply movement_label_cases].
  apply elem_of_dom. rewrite window_body_lookup by assumption. eauto.
Qed.

Lemma errors_name_keys_of_the_body_witness :
  inner_date (mkdate 2024 3 1)
  /\ exists dates st,
       get_dates (mkdate 2024 3 1) = inr dates
       /\ aggregate strict_str exception_name half_upstream dates = inr st
       /\ get_djerba_flights strict_str exception_name half_upstream (mkdate 2024 3 1)
          = Return (flights_by_date st)
       /\ (length (api_errors st) <= 6)%nat
       /\ Forall (fun e => date e ∈ dom (flights_by_date st)
                           /\ (movement e = "departures" \/ movement e = "arrivals"))
            (api_errors st).
Proof.
  split; [exact inner_date_2024_03_01|].
  apply (errors_name_keys_of_the_body strict_str exception_name half_upstream
           (mkdate 2024 3 1) inner_date_2024_03_01).
Defined.

(** X7: in a run of the handler an error and flights never come from the
    same fetch: when an error is recorded for a date and a movement, the
    bucket of that movement under that date is empty, and a bucket that holds
    a flight has no error recorded for its pair. *)
Theorem error_means_empty_bucket
    (validate_str : json -> option string) (str_exc : exception -> string)
    (upstream : request -> reply) (now : datetime) :
  inner_date now ->
  exists dates st,
    get_dates now = inr dates
    /\ aggregate validate_str str_exc upstream dates = inr st
    /\ get_djerba_flights validate_str str_exc upstream now
       = Return (flights_by_date st)
    /\ (forall t m e,
          t ∈ window now -> e ∈ api_errors st -> of_pair t m e ->
          exists df, flights_by_date st !! key_of t = Some df /\ bucket m df = [])
    /\ (forall t m df,
          t ∈ window now -> flights_by_date st !! key_of t = Some df ->
          bucket m df <> [] ->
          forall e, e ∈ api_errors st -> ~ of_pair t m e).
Proof.
  intros Hin.
  pose proof (window_valid now Hin) as Hv. rewrite Forall_forall in Hv.
  destruct (aggregate_get_dates validate_str str_exc upstream now Hin)
    as (dates & Hd & Ha).
  exists dates, (mkState (window_body validate_str upstream now)
                         (window_errors validate_str str_exc upstream now)).
  simpl. split; [assumption|]. split; [assumption|].
  split; [apply handler_returns; assumption|].
  assert (forall t m e,
            t ∈ window now ->
            e ∈ window_errors validate_str str_exc upstream now ->
            of_pair t m e ->
            bucket m (date_entry validate_str upstream t) = []) as Hempty.
  { intros t m e Ht He [E1 E2].
    destruct (window_errors_origin _ _ _ now e He) as (t' & m' & Ht' & Hp).
    destruct (pair_errors_of_pair _ _ _ t' m' e Hp) as [E1' E2'].
    assert (t' = t) as -> by (apply key_of_inj; auto; congruence).
    assert (m' = m) as -> by (apply movement_label_inj; congruence).
    apply pair_errors_failure, (failure_contribution validate_str str_exc) in Hp.
    unfold date_entry. destruct m; exact Hp. }
  split.
  - intros t m e Ht He Hof. exists (date_entry validate_str upstream t).
    split; [apply window_body_lookup; assumption|]. eapply Hempty; eassumption.
  - intros t m df Ht Hdf Hne e He Hof.
    rewrite window_body_lookup in Hdf by assumption. injection Hdf as <-.
    apply Hne. eapply Hempty; eassumption.
Qed.

Lemma error_means_empty_bucket_witness :
  inner_date (mkdate 2024 3 1)
  /\ exists dates st,
       get_dates (mkdate 2024 3 1) = inr dates
       /\ aggregate strict_str exception_name half_upstream dates = inr st
       /\ get_djerba_flights strict_str exception_name half_upstream (mkdate 2024 3 1)
          = Return (flights_by_date st)
       /\ (forall t m e,
             t ∈ window (mkdate 2024 3 1) -> e ∈ api_errors st -> of_pair t m e ->
             exists df, flights_by_date st !! key_of t = Some df /\ bucket m df = []).
Proof.
  split; [exact inner_date_2024_03_01|].
  destruct (error_means_empty_bucket strict_str exception_name half_upstream
              (mkdate 2024 3 1) inner_date_2024_03_01)
    as (dates & st & H1 & H2 & H3 & H4 & _).
  exists dates, st. auto.
Defined.

(** ** The list comprehension *)

(** X8: the list comprehension maps the elements in order and stops at the
    first one that raises: it gives a list of flights exactly when every
    element maps, and then the flights are those of the elements, one each
    and in the order of the response; it raises [e] exactly when some element
    raises [e] and all the elements before it map. *)
Theorem comprehension_maps_in_order_or_raises_first
    (validate_str : json -> option string) (data : list json) :
  (forall flight_details,
     comprehension validate_str data = inr flight_details
     <-> Forall2 (fun item f => to_flight validate_str item = inr f)
           data flight_details)
  /\ (forall e,
        comprehension validate_str data = inl e
        <-> exists before item after,
              data = (before ++ item :: after)%list
              /\ Forall (fun x => exists f, to_flight validate_str x = inr f) before
              /\ to_flight validate_str item = inl e).
Proof.
  induction data as [|x data [IHr IHl]]; simpl.
  - split.
    + intros fs. split; [intros [= <-]; constructor|].
      intros H. inversion H. reflexivity.
    + intros e. split; [discriminate|].
      intros (before & item & after & E & _). destruct before; discriminate.
  - assert (forall e before item after,
              x :: data = (before ++ item :: after)%list ->
              Forall (fun x => exists f, to_flight validate_str x = inr f) before ->
              to_flight validate_str item = inl e ->
              to_flight validate_str x = inl e
              \/ (exists f, to_flight validate_str x = inr f)
                 /\ comprehension validate_str data = inl e) as Hsplit.
    { intros e before item after E Hb Hi.
      destruct before as [|b before]; simpl in E; injection E as E1 E2.
      - left. congruence.
      - right. apply Forall_cons in Hb as [Hx Hb]. subst b.
        split; [assumption|]. apply IHl. eauto 6. }
    destruct (to_flight validate_str x) as [ex|fx] eqn:Ex; simpl.
    + split.
      * intros fs. split; [discriminate|].
        intros H. inversion H; subst. congruence.
      * intros e. split.
        -- intros [= <-]. exists [], x, data. repeat split; [constructor|assumption].
        -- intros (before & item & after & E & Hb & Hi).
           destruct (Hsplit e before item after E Hb Hi) as [H|[[f Hf] _]]; congruence.
    + destruct (comprehension validate_str data) as [e'|fs'] eqn:Ec; simpl.
      * split.
        -- intros fs. split; [discriminate|].
           intros H. inversion H as [|? f ? fs0 Hx Hrest]; subst.
           apply IHr in Hrest. discriminate.
        -- intros e. split.
           ++ intros [= <-].
              destruct (proj1 (IHl e') eq_refl)
                as (before & item & after & -> & Hb & Hi).
              exists (x :: before), item, after.
              repeat split; [constructor; eauto|assumption].
           ++ intros (before & item & after & E & Hb & Hi).
              destruct (Hsplit e before item after E Hb Hi) as [H|[_ H]]; congruence.
      * split.
        -- intros fs. split.
           ++ intros [= <-]. constructor; [assumption|]. apply IHr. reflexivity.
           ++ intros H. inversion H as [|? f ? fs0 Hx Hrest]; subst.
              apply IHr in Hrest. injection Hrest as <-. congruence.
        -- intros e. split; [discriminate|].
           intros (before & item & after & E & Hb & Hi).
           destruct (Hsplit e before item after E Hb Hi) as [H|[_ H]]; congruence.
Qed.

(** ** Companies in the dictionary *)

Section Trimmed.

Variable validate_str : json -> option string.
Hypothesis validate_str_str : forall s, validate_str (JStr s) = Some s.

Lemma to_flight_company item f :
  to_flight validate_str item = inr f -> exists s, company f = strip s.
Proof.
  unfold to_flight.
  destruct (getitem item "direction") as [?|v1]; simpl; [discriminate|].
  destruct (getitem item "heure") as [?|v2]; simpl; [discriminate|].
  destruct (getitem item "compagnie") as [?|v3]; simpl; [discriminate|].
  destruct v3 as [|b|n|repr|s|l|items]; simpl; try discriminate.
  destruct (getitem item "numVol") as [?|v4]; simpl; [discriminate|].
  destruct (getitem item "commentaire") as [?|v5]; simpl; [discriminate|].
  unfold FlightDetails_init. rewrite validate_str_str.
  destruct (validate_str v1), (validate_str v2), (validate_str v4),
    (validate_optional_str validate_str v5); try discriminate.
  intros [= <-]. exists s. reflexivity.
Qed.

Lemma contribution_company r f :
  f ∈ contribution validate_str r -> exists s, company f = strip s.
Proof.
  unfold contribution. destruct r as [| | |[]]; try (intros []%elem_of_nil).
  destruct (comprehension validate_str items) as [e|fs] eqn:E;
    [intros []%elem_of_nil|].
  revert fs E. induction items as [|x items IH]; simpl; intros fs.
  - intros [= <-] []%elem_of_nil.
  - destruct (to_flight validate_str x) as [?|fx] eqn:Ex; simpl; [discriminate|].
    destruct (comprehension validate_str items) as [?|fs']; simpl; [discriminate|].
    intros [= <-] [->|Hin]%elem_of_cons.
    + eapply to_flight_company. eassumption.
    + eapply IH; [reflexivity|assumption].
Qed.

End Trimmed.

Lemma window_body_lookup_inv validate_str upstream now k df :
  window_body validate_str upstream now !! k = Some df ->
  exists t, t ∈ window now /\ k = key_of t
            /\ df = date_entry validate_str upstream t.
Proof.
  unfold window_body, window. rewrite !lookup_insert_Some, lookup_empty.
  intros [[<- <-]|[_ [[<- <-]|[_ [[<- <-]|[_ [=]]]]]]];
    eexists; (split; [|split; reflexivity]); rewrite !elem_of_cons; auto.
Qed.

(** X9: no company in the dictionary the handler returns starts or ends
    with whitespace, under whatever date and in whichever bucket the flight
    comes; for any validator that stores a [str] as it is given. *)
Theorem companies_are_trimmed
    (validate_str : json -> option string) (str_exc : exception -> string)
    (upstream : request -> reply) (now : datetime) :
  (forall s, validate_str (JStr s) = Some s) ->
  inner_date now ->
  exists body,
    get_djerba_flights validate_str str_exc upstream now = Return body
    /\ forall k df f,
         body !! k = Some df -> f ∈ departures df \/ f ∈ arrivals df ->
         starts_with_space (company f) = false
         /\ ends_with_space (company f) = false.
Proof.
  intros Hvs Hin. exists (window_body validate_str upstream now).
  split; [apply handler_returns; assumption|].
  intros k df f Hk Hf.
  apply window_body_lookup_inv in Hk as (t & _ & _ & ->).
  assert (exists s, company f = strip s) as [s ->].
  { unfold date_entry in Hf. simpl in Hf.
    destruct Hf as [Hf|Hf]; eapply contribution_company; eassumption. }
  destruct (strip_spec s) as (l & r & _ & _ & _ & Hs & He). auto.
Qed.

Lemma companies_are_trimmed_witness :
  (forall s, strict_str (JStr s) = Some s)
  /\ inner_date (mkdate 2024 3 1)
  /\ exists body,
       get_djerba_flights strict_str exception_name padded_upstream (mkdate 2024 3 1)
       = Return body
       /\ forall k df f,
            body !! k = Some df -> f ∈ departures df \/ f ∈ arrivals df ->
            starts_with_space (company f) = false
            /\ ends_with_space (company f) = false.
Proof.
  split; [intros s; reflexivity|]. split; [exact inner_date_2024_03_01|].
  apply (companies_are_trimmed strict_str exception_name padded_upstream
           (mkdate 2024 3 1) (fun s => eq_refl) inner_date_2024_03_01).
Defined.

(** ** Fields the handler does not read *)

(** X10: a record is read through its five keys only: two objects that
    hold the same values under direction, heure, compagnie, numVol and
    commentaire map to the same flight or raise the same exception, whatever
    other fields they have and in whatever order. *)
Theorem to_flight_reads_five_keys
    (validate_str : json -> option string) (items items' : list (string * json)) :
  (forall key, key ∈ record_keys -> dict_get items key = dict_get items' key) ->
  to_flight validate_str (JDict items) = to_flight validate_str (JDict items').
Proof.
  intros Hsame. unfold to_flight, getitem.
  rewrite !Hsame by (unfold record_keys; rewrite !elem_of_cons; auto 10).
  reflexivity.
Qed.

Lemma to_flight_reads_five_keys_witness :
  (forall key, key ∈ record_keys ->
     dict_get [("terminal", JStr "T1"); ("commentaire", JNull);
               ("numVol", JStr "BJ101"); ("compagnie", JStr "Nouvelair");
               ("heure", JStr "14:30"); ("direction", JStr "TUN")] key
     = dict_get [("direction", JStr "TUN"); ("heure", JStr "14:30");
                 ("compagnie", JStr "Nouvelair"); ("numVol", JStr "BJ101");
                 ("commentaire", JNull)] key)
  /\ to_flight strict_str verbose_record = to_flight strict_str mocked_record.
Proof.
  assert (forall key, key ∈ record_keys ->
            dict_get [("terminal", JStr "T1"); ("commentaire", JNull);
                      ("numVol", JStr "BJ101"); ("compagnie", JStr "Nouvelair");
                      ("heure", JStr "14:30"); ("direction", JStr "TUN")] key
            = dict_get [("direction", JStr "TUN"); ("heure", JStr "14:30");
                        ("compagnie", JStr "Nouvelair"); ("numVol", JStr "BJ101");
                        ("commentaire", JNull)] key) as H.
  { intros key. unfold record_keys. rewrite !elem_of_cons, elem_of_nil.
    intros [->|[->|[->|[->|[->|[]]]]]]; reflexivity. }
  split; [exact H|]. exact (to_flight_reads_five_keys strict_str _ _ H).
Defined.

(** ** More on [strip] *)

Lemma lstrip_fixed s : starts_with_space s = false -> lstrip s = s.
Proof. destruct s as [|c s]; simpl; [reflexivity|]. intros ->. reflexivity. Qed.

Lemma rstrip_fixed s : ends_with_space s = false -> rstrip s = s.
Proof.
  induction s as [|c s IH]; simpl; [reflexivity|].
  destruct s as [|a t].
  - simpl. intros ->. reflexivity.
  - intros H. rewrite (IH H). reflexivity.
Qed.

Lemma lstrip_all_space s : all_space s = true -> lstrip s = "".
Proof.
  induction s as [|c s IH]; simpl; [reflexivity|].
  intros [Hc Hs]%andb_true_iff. rewrite Hc. auto.
Qed.

Lemma length_append s t :
  String.length (s +:+ t) = (String.length s + String.length t)%nat.
Proof.
  induction s as [|c s IH]; [reflexivity|].
  change (String c s +:+ t) with (String c (s +:+ t)). simpl. rewrite IH.
  reflexivity.
Qed.

(** X11: stripping is a normal form: a string that neither starts nor ends
    with whitespace is left as it is, so stripping twice is stripping once
    and a company taken from the output maps to itself; a string of
    whitespace alone becomes empty; and the result is never longer than the
    string. *)
Theorem strip_is_a_normal_form (s : string) :
  (starts_with_space s = false -> ends_with_space s = false -> strip s = s)
  /\ strip (strip s) = strip s
  /\ (all_space s = true -> strip s = "")
  /\ (String.length (strip s) <= String.length s)%nat.
Proof.
  assert (forall t, starts_with_space t = false -> ends_with_space t = false ->
                    strip t = t) as Hfixed.
  { intros t Hs He. unfold strip. rewrite (lstrip_fixed t Hs). apply rstrip_fixed, He. }
  destruct (strip_spec s) as (l & r & E & _ & _ & Hs & He).
  split; [apply Hfixed|]. split; [apply Hfixed; assumption|]. split.
  - intros Ha. unfold strip. rewrite (lstrip_all_space s Ha). reflexivity.
  - rewrite E at 2. rewrite !length_append. lia.
Qed.

(** ** The URL of a fetch *)

Lemma all_digits_no_ampersand s : all_digits s = true -> no_ampersand s = true.
Proof.
  induction s as [|c s IH]; simpl; [reflexivity|].
  intros [Hc Hs]%andb_true_iff. rewrite (IH Hs), andb_true_r.
  destruct (Ascii.eqb_spec c "&") as [->|]; [discriminate Hc|reflexivity].
Qed.

(** Two texts that meet their first ampersand at the same place. *)
Lemma append_ampersand_inj a a' r r' :
  no_ampersand a = true -> no_ampersand a' = true ->
  a +:+ String "&" r = a' +:+ String "&" r' -> a = a' /\ r = r'.
Proof.
  revert a'. induction a as [|c a IH]; intros [|c' a'] Ha Ha' E.
  - injection E as <-. auto.
  - change (String "&" r = String c' (a' +:+ String "&" r')) in E.
    injection E as <- _. discriminate Ha'.
  - change (String c (a +:+ String "&" r) = String "&" r') in E.
    injection E as -> _. discriminate Ha.
  - change (String c (a +:+ String "&" r) = String c' (a' +:+ String "&" r')) in E.
    injection E as <- E. simpl in Ha, Ha'.
    apply andb_true_iff in Ha as [_ Ha]. apply andb_true_iff in Ha' as [_ Ha'].
    destruct (IH a' Ha Ha' E) as [-> ->]. auto.
Qed.

Lemma append_field_inj a a' name r r' :
  no_ampersand a = true -> no_ampersand a' = true ->
  a +:+ String "&" name +:+ r = a' +:+ String "&" name +:+ r' -> a = a' /\ r = r'.
Proof.
  intros Ha Ha' E.
  change (a +:+ String "&" (name +:+ r) = a' +:+ String "&" (name +:+ r')) in E.
  apply append_ampersand_inj in E as [-> E]; [|assumption..].
  apply String.app_inj in E. auto.
Qed.

Lemma strftime_no_ampersand t :
  valid_date t ->
  no_ampersand (strftime_d t) = true /\ no_ampersand (strftime_m t) = true
  /\ no_ampersand (strftime_Y t) = true.
Proof.
  intros Hv. destruct (valid_date_ranges t Hv) as (Hd & Hm & Hy).
  destruct (renders_2 _ Hd) as (_ & Dd & _).
  destruct (renders_2 _ Hm) as (_ & Dm & _).
  destruct (pretty_year_numeral _ Hy) as ((Dy & _) & _).
  unfold strftime_d, strftime_m, strftime_Y.
  auto using all_digits_no_ampersand.
Qed.

(** X12: the URL tells the fetches apart.  For a rendering of the movement
    that gives different texts for departures and arrivals, neither with an
    ampersand in it, two fetches of valid dates have the same URL only if
    they are for the same movement and the same date. *)
Theorem url_tells_fetches_apart
    (format_movement : MovementType.t -> string)
    (m m' : MovementType.t) (t t' : datetime) :
  (forall x, no_ampersand (format_movement x) = true) ->
  format_movement MovementType.departures <> format_movement MovementType.arrivals ->
  valid_date t -> valid_date t' ->
  url format_movement m (strftime_d t) (strftime_m t) (strftime_Y t)
  = url format_movement m' (strftime_d t') (strftime_m t') (strftime_Y t') ->
  m = m' /\ t = t'.
Proof.
  intros Hamp Hne Hv Hv' E. unfold url in E.
  destruct (strftime_no_ampersand t Hv) as (Hd & Hm & Hy).
  destruct (strftime_no_ampersand t' Hv') as (Hd' & Hm' & Hy').
  do 2 apply String.app_inj in E.
  apply append_field_inj in E as [Ef E]; [|apply Hamp..].
  do 4 apply String.app_inj in E.
  apply append_field_inj in E as [Ed E]; [|assumption..].
  apply append_field_inj in E as [Em E]; [|assumption..].
  apply append_ampersand_inj in E as [Ey _]; [|assumption..].
  split.
  - destruct m, m'; try reflexivity; congruence.
  - apply key_of_inj; try assumption. unfold key_of. rewrite Ed, Em, Ey. reflexivity.
Qed.

Example url_of_a_departure :
  url format_value MovementType.departures "01" "03" "2024"
  = "https://www.oaca.nat.tn/vols/api/flight/filter?frmmvtCod=D&frmaeropVil=-1&frmnumVol=&frmairport=djerba&frmday=01&frmmonth=03&frmacty=2024&frmhour=0".
Proof. reflexivity. Qed.

Lemma url_tells_fetches_apart_witness :
  (forall x, no_ampersand (format_value x) = true)
  /\ (forall x, no_ampersand (format_name x) = true)
  /\ format_value MovementType.departures <> format_value MovementType.arrivals
  /\ format_name MovementType.departures <> format_name MovementType.arrivals
  /\ valid_date (mkdate 2024 3 1)
  /\ (url format_name MovementType.arrivals "01" "03" "2024"
      = url format_name MovementType.arrivals
          (strftime_d (mkdate 2024 3 1)) (strftime_m (mkdate 2024 3 1))
          (strftime_Y (mkdate 2024 3 1)))
  /\ (MovementType.arrivals = MovementType.arrivals
      /\ mkdate 2024 3 1 = mkdate 2024 3 1).
Proof.
  split; [intros []; reflexivity|]. split; [intros []; reflexivity|].
  split; [discriminate|]. split; [discriminate|].
  split; [exact (proj1 inner_date_2024_03_01)|]. split; [reflexivity|].
  apply (url_tells_fetches_apart format_name MovementType.arrivals
           MovementType.arrivals (mkdate 2024 3 1) (mkdate 2024 3 1)).
  - intros []; reflexivity.
  - discriminate.
  - exact (proj1 inner_date_2024_03_01).
  - exact (proj1 inner_date_2024_03_01).
  - reflexivity.
Defined.
